(** * Fwog: the dynamic Base trading plugin and the AutoClient wrapper

    A shallow embedding of the two TypeScript sources of the repository,

      - the dynamic trading plugin ([fetchTokensOnBase], [calculateVolatility],
        [analyzeTokens], [executeTrade]), and
      - [packages/client-auto/src/index.ts] (class [AutoClient] and
        [AutoClientInterface]),

    followed by the properties of the specification that concern them.

    JavaScript numbers are IEEE 754 binary64 values; they are modelled by
    Rocq's primitive floats, so that every arithmetic step below rounds the
    way the program does.  Asynchronous functions are modelled by a monad of
    computations that keep a state (the journal of observable effects, the
    fields of [this]) and either return or throw. *)

From Stdlib Require Import ZArith Floats List String Bool Lia Uint63
  Permutation.
Import ListNotations.

Set Warnings "-inexact-float,-register-all,-notation-for-abbreviation".

(* ====================================================================== *)
(** * JavaScript values and control flow *)
(* ====================================================================== *)

Module Js.

(** ** Numbers *)

Notation number := float (only parsing).

(** [ToBoolean] on a number: [+0], [-0] and [NaN] are falsy. *)
Definition truthy (x : number) : bool :=
  negb (PrimFloat.eqb x 0%float || PrimFloat.is_nan x).

(** [x || 0] where [x] is a number. *)
Definition or0 (x : number) : number := if truthy x then x else 0%float.

(** [a > b] and [a >= b] (both false as soon as one side is [NaN]). *)
Definition gt (a b : number) : bool := PrimFloat.ltb b a.
Definition ge (a b : number) : bool := PrimFloat.leb b a.
Definition lt (a b : number) : bool := PrimFloat.ltb a b.

(** [Math.floor]: the largest integral number not above [x]; zeros,
    infinities and [NaN] are returned unchanged.  A finite number is
    [(-1)^s * m * 2^e] with [m < 2^53]; when [e >= 0] it is integral. *)
Definition Math_floor (x : number) : number :=
  match Prim2SF x with
  | S754_finite s m e =>
      if (0 <=? e)%Z then x
      else
        let q := Z.shiftr (Z.pos m) (- e) in
        let exact := Z.eqb (Z.shiftl q (- e)) (Z.pos m) in
        if s then
          PrimFloat.opp
            (PrimFloat.of_uint63 (Uint63.of_Z (if exact then q else q + 1)))
        else PrimFloat.of_uint63 (Uint63.of_Z q)
  | _ => x
  end.

Definition Math_sqrt (x : number) : number := PrimFloat.sqrt x.

(** [Math.pow(x, 2)], taken as the correctly rounded square. *)
Definition Math_pow2 (x : number) : number := PrimFloat.mul x x.

(** The [length] of an array as a number (exact: lengths are below 2^32). *)
Definition number_of_length (n : nat) : number :=
  PrimFloat.of_uint63 (Uint63.of_Z (Z.of_nat n)).

(** ** JSON documents, as [response.json()] yields them *)

Inductive json : Type :=
| JNull
| JBool (b : bool)
| JNum (x : number)
| JStr (s : string)
| JArr (items : list json)
| JObj (members : list (string * json)).

(** A JavaScript value read from such a document: [None] is [undefined]. *)
Definition value := option json.

Definition undefined : value := None.

(** ** Thrown values: [Error] objects with their [message] *)

Record exn : Type := Error { message : string }.

Inductive outcome (A : Type) : Type :=
| Returns (a : A)
| Throws (e : exn).
Arguments Returns {A} a.
Arguments Throws {A} e.

(** ** Computations over a state [S] that return or throw *)

Definition M (S A : Type) : Type := S -> outcome A * S.

Definition ret {S A} (a : A) : M S A := fun s => (Returns a, s).

Definition throw {S A} (e : exn) : M S A := fun s => (Throws e, s).

Definition bind {S A B} (m : M S A) (k : A -> M S B) : M S B :=
  fun s =>
    match m s with
    | (Returns a, s') => k a s'
    | (Throws e, s') => (Throws e, s')
    end.

(** [try { m } catch (error) { h error }] *)
Definition try_catch {S A} (m : M S A) (h : exn -> M S A) : M S A :=
  fun s =>
    match m s with
    | (Returns a, s') => (Returns a, s')
    | (Throws e, s') => h e s'
    end.

(** [await] of an operation of a collaborator whose outcome is known. *)
Definition await {S A} (o : outcome A) : M S A := fun s => (o, s).

Definition modify {S} (f : S -> S) : M S unit := fun s => (Returns tt, f s).

Definition get {S} : M S S := fun s => (Returns s, s).

(** [xs.map(f)] for a callback that may throw: the calls are made in the
    order of [xs] and the first exception ends the traversal. *)
Fixpoint map_array {S A B} (f : A -> M S B) (xs : list A) : M S (list B) :=
  match xs with
  | [] => ret []
  | x :: rest =>
      bind (f x) (fun y => bind (map_array f rest) (fun ys => ret (y :: ys)))
  end.

(** [await Promise.all(xs.map(f))] for an asynchronous [f]: the results in
    the order of [xs]; a rejection rejects the whole.  The calls are taken
    one after the other, which fixes the order of the journal entries but
    not the results. *)
Definition all {S A B} (f : A -> M S B) (xs : list A) : M S (list B) :=
  map_array f xs.

(** [xs.filter(x => x !== null)] *)
Fixpoint filter_not_null {A} (xs : list (option A)) : list A :=
  match xs with
  | [] => []
  | Some a :: rest => a :: filter_not_null rest
  | None :: rest => filter_not_null rest
  end.

(** ** Numeric fields of a JSON object

    The metrics and quote endpoints document their fields as numbers; a field
    can also be missing or [null]. *)
Inductive field : Type :=
| Absent
| Null
| Num (x : number).

(** [ToNumber]: [undefined] gives [NaN] and [null] gives [+0]. *)
Definition ToNumber (v : field) : number :=
  match v with
  | Absent => PrimFloat.nan
  | Null => 0%float
  | Num x => x
  end.

(** [v || 0] *)
Definition field_or0 (v : field) : number :=
  match v with
  | Num x => or0 x
  | _ => 0%float
  end.

(** ** Member access on a parsed document *)

Definition TypeError (text : string) : exn := Error text.

(** The value of the last member named [key] ([JSON.parse] keeps the last
    of duplicate names). *)
Definition lookup (key : string) (members : list (string * json)) : value :=
  fold_left
    (fun found member =>
       if String.eqb (fst member) key then Some (snd member) else found)
    members None.

(** [o.key] for the data members read by the program; reading a member of
    [null] throws, and numbers, booleans, strings and arrays have none of
    the members read here. *)
Definition null_read (key : string) : exn :=
  TypeError ("Cannot read properties of null (reading '" ++ key ++ "')").

Definition member {S} (o : json) (key : string) : M S value :=
  match o with
  | JNull => throw (null_read key)
  | JObj members => ret (lookup key members)
  | _ => ret undefined
  end.

(** ** [fetch] and [response.json()] *)

Inductive body (A : Type) : Type :=
| Malformed (e : exn)
| Parsed (a : A).
Arguments Malformed {A} e.
Arguments Parsed {A} a.

Record response (A : Type) : Type := Response { ok : bool; content : body A }.
Arguments Response {A} ok content.
Arguments ok {A} r.
Arguments content {A} r.

Inductive reply (A : Type) : Type :=
| Rejected (e : exn)
| Responded (r : response A).
Arguments Rejected {A} e.
Arguments Responded {A} r.

Definition fetch {S A} (r : reply A) : M S (response A) :=
  match r with
  | Rejected e => throw e
  | Responded resp => ret resp
  end.

Definition json_of {S A} (resp : response A) : M S A :=
  match content resp with
  | Malformed e => throw e
  | Parsed a => ret a
  end.

(** A payload whose members are read: the document [null] or an object. *)
Inductive payload (A : Type) : Type :=
| PNull
| PObject (a : A).
Arguments PNull {A}.
Arguments PObject {A} a.

Definition members_of {S A} (reading : string) (p : payload A) : M S A :=
  match p with
  | PNull => throw (null_read reading)
  | PObject a => ret a
  end.

(** The call returned (the promise was fulfilled) rather than threw. *)
Definition returned {A} (o : outcome A) : bool :=
  match o with
  | Returns _ => true
  | Throws _ => false
  end.

Definition result {S A} (r : outcome A * S) : outcome A := fst r.
Definition final {S A} (r : outcome A * S) : S := snd r.

End Js.

Import Js.

Declare Scope js_scope.
Delimit Scope js_scope with js.
Notation "x <- m ;; k" := (bind m (fun x => k))
  (at level 61, m at next level, right associativity) : js_scope.
Notation "m ;; k" := (bind m (fun _ => k))
  (at level 61, right associativity) : js_scope.

(* ====================================================================== *)
(** * The dynamic trading plugin *)
(* ====================================================================== *)

Module Trading.

Open Scope js_scope.

(** ** VolatilityEstimator *)

(** [historicalPrices[i]]; an index out of range reads [undefined], which
    arithmetic turns into [NaN]. *)
Definition at_index (prices : list number) (i : nat) : number :=
  nth i prices PrimFloat.nan.

(** The [for] loop of [calculateVolatility]: [k] iterations remain, [i] is
    the loop index and [returns] the array filled so far. *)
Fixpoint returns_loop (prices : list number) (k i : nat)
    (returns : list number) : list number :=
  match k with
  | O => returns
  | S k' =>
      let dailyReturn :=
        ((at_index prices i - at_index prices (i - 1))
           / at_index prices (i - 1))%float in
      returns_loop prices k' (S i) (returns ++ [dailyReturn])
  end.

(** The argument is an array at the only call ([metrics.historicalPrices ||
    []]), so the test [!historicalPrices] is false and the guard is the
    length test. *)
Definition calculateVolatility (historicalPrices : list number) : number :=
  if (List.length historicalPrices <? 2)%nat then 0%float
  else
    let returns :=
      returns_loop historicalPrices (List.length historicalPrices - 1) 1 [] in
    let mean :=
      (fold_left (fun sum value => sum + value) returns 0
         / number_of_length (List.length returns))%float in
    let variance :=
      (fold_left (fun sum value => sum + Math_pow2 (value - mean)) returns 0
         / number_of_length (List.length returns))%float in
    Math_sqrt variance.

(** ** Tokens and the collaborators of the plugin *)

Record Token : Type := mkToken {
  symbol : value;
  address : value;
  decimals : value;
  name : value
}.

Record TokenMetrics : Type := mkMetrics {
  price : number;
  volume24h : number;
  priceChange24h : number;
  liquidityUSD : number;
  volatility : number;
  volumeToLiquidity : number
}.

Inductive RiskProfile : Type := high | standard.

(** [{ ...token, riskProfile, metrics }] *)
Record AnalyzedToken : Type := mkAnalyzed {
  token_of : Token;
  riskProfile : RiskProfile;
  metrics : TokenMetrics
}.

(** The members that [getTokenMetrics] reads from the metrics document;
    [raw_historicalPrices] is [None] when the member is missing or [null]. *)
Record RawMetrics : Type := mkRaw {
  raw_price : field;
  raw_volume24h : field;
  raw_priceChange24h : field;
  raw_liquidityUSD : field;
  raw_historicalPrices : option (list number)
}.

Record RawQuote : Type := mkQuote { expectedOutput : field }.

(** What the network answers.  The URL of the metrics request is made of
    [token.address], the URL of the quote request of [token.address] and
    [amount]; the answers are functions of these. *)
Record Network : Type := mkNetwork {
  tokenList : reply json;
  tokenMetrics : value -> reply (payload RawMetrics);
  quoteFor : value -> number -> reply (payload RawQuote);
  Date_now : number
}.

Record Receipt : Type := mkReceipt { hash : value }.

Record Transaction : Type := mkTransaction { wait : outcome Receipt }.

Record Router : Type := mkRouter {
  swapExactETHForTokens :
    number -> list value -> value -> number -> number -> outcome Transaction
}.

Record WalletClient : Type := mkWallet {
  getContract : string -> outcome Router;
  getAddress : outcome value
}.

(** The journal of the plugin: console output and the contract call.  A
    template literal is kept as its fixed text and the interpolated value. *)
Inductive event : Type :=
| ConsoleError (text : string) (about : value) (error : exn)
| ConsoleLog (text : string) (about : value) (amount : number)
| SwapCall (amountOutMin : number) (path : list value) (to : value)
           (deadline : number) (sent : number).

Definition journal := list event.

Definition emit (e : event) : M journal unit := modify (fun j => j ++ [e]).

(** ** TokenCatalog *)

Definition fallbackTokens : list Token :=
  [ mkToken (Some (JStr "USDC"))
            (Some (JStr "0x833589fCD6eDb6E08f4c7C32D4f71b54bdA02913"))
            (Some (JNum 6)) (Some (JStr "USD Coin"));
    mkToken (Some (JStr "WETH"))
            (Some (JStr "0x4200000000000000000000000000000000000006"))
            (Some (JNum 18)) (Some (JStr "Wrapped Ether"));
    mkToken (Some (JStr "BTC"))
            (Some (JStr "0x236aa50979D5f3De3Bd1Eeb40E81137F22ab794b"))
            (Some (JNum 8)) (Some (JStr "Bitcoin"));
    mkToken (Some (JStr "SOL"))
            (Some (JStr "0x1C6aE197fF4BF7BA96726FB6633cc0A8B0d169C8"))
            (Some (JNum 9)) (Some (JStr "Solana")) ].

(** The callback of [tokens.map]. *)
Definition toToken (token : json) : M journal Token :=
  symbol <- member token "symbol" ;;
  address <- member token "address" ;;
  decimals <- member token "decimals" ;;
  name <- member token "name" ;;
  ret (mkToken symbol address decimals name).

(** [tokens.map(...)] on the parsed document: only an array has [map]. *)
Definition tokens_map (tokens : json) : M journal (list Token) :=
  match tokens with
  | JArr items => map_array toToken items
  | JNull => throw (null_read "map")
  | _ => throw (TypeError "tokens.map is not a function")
  end.

Definition fetchTokensOnBase (net : Network) : M journal (list Token) :=
  try_catch
    (response <- fetch (tokenList net) ;;
     (if negb (ok response)
      then throw (Error "Failed to fetch Base tokens")
      else ret tt) ;;
     tokens <- json_of response ;;
     tokens_map tokens)
    (fun error =>
       emit (ConsoleError "Error fetching Base tokens:" undefined error) ;;
       ret fallbackTokens).

(** ** TokenAnalyzer *)

(** The object that [getTokenMetrics] returns for the members [metrics] of
    the document. *)
Definition metricsFrom (metrics : RawMetrics) : TokenMetrics :=
  let volatility :=
    calculateVolatility
      (match raw_historicalPrices metrics with
       | Some prices => prices
       | None => []
       end) in
  {| price := field_or0 (raw_price metrics);
     volume24h := field_or0 (raw_volume24h metrics);
     priceChange24h := field_or0 (raw_priceChange24h metrics);
     liquidityUSD := field_or0 (raw_liquidityUSD metrics);
     volatility := volatility;
     volumeToLiquidity :=
       or0 (ToNumber (raw_volume24h metrics)
              / ToNumber (raw_liquidityUSD metrics))%float |}.

Definition getTokenMetrics (net : Network) (token : Token)
  : M journal (option TokenMetrics) :=
  try_catch
    (response <- fetch (tokenMetrics net (address token)) ;;
     document <- json_of response ;;
     metrics <- members_of "historicalPrices" document ;;
     ret (Some (metricsFrom metrics)))
    (fun error =>
       emit (ConsoleError "Error fetching metrics for " (symbol token) error) ;;
       ret None).

(** The body of the callback of [analyzeTokens] once the metrics are there. *)
Definition classify (token : Token) (metrics : TokenMetrics)
  : option AnalyzedToken :=
  let isHighVolatility := gt (volatility metrics) 0.1 in
  let isHighTurnover := gt (volumeToLiquidity metrics) 0.5 in
  let isProfitable :=
    if isHighVolatility && isHighTurnover
    then ge (liquidityUSD metrics) 25000
         && ge (volume24h metrics) 15000
         && lt (priceChange24h metrics) (-3)
    else ge (liquidityUSD metrics) 100000
         && ge (volume24h metrics) 50000
         && lt (priceChange24h metrics) 0 in
  if isProfitable
  then Some {| token_of := token;
               riskProfile := if isHighVolatility then high else standard;
               metrics := metrics |}
  else None.

Definition analyzeToken (net : Network) (token : Token)
  : M journal (option AnalyzedToken) :=
  metrics <- getTokenMetrics net token ;;
  match metrics with
  | None => ret None
  | Some metrics => ret (classify token metrics)
  end.

Definition analyzeTokens (net : Network) (tokens : list Token)
  : M journal (list AnalyzedToken) :=
  analyzedTokens <- all (analyzeToken net) tokens ;;
  ret (filter_not_null analyzedTokens).

(** ** TradeExecutor *)

Record TradeResult : Type := mkTrade {
  trade_success : bool;
  trade_hash : value;
  trade_amount : number;
  trade_token : value
}.

Definition WETH_ADDRESS : string := "0x4200000000000000000000000000000000000006".
Definition routerAddress : string := "0xaa8d210f7c34a056Bb573f15962673C5c24fbd10".
Definition slippageTolerance : number := 0.005.

Definition minimumAmountOut (expected : field) : number :=
  Math_floor (ToNumber expected * (1 - slippageTolerance))%float.

(** The [try] block of [executeTrade]. *)
Definition tradeSteps (net : Network) (walletClient : WalletClient)
    (token : Token) (amount : number) : M journal TradeResult :=
  router <- await (getContract walletClient routerAddress) ;;
  let deadline := (Math_floor (Date_now net / 1000) + 1800)%float in
  let path := [Some (JStr WETH_ADDRESS); address token] in
  quoteResponse <- fetch (quoteFor net (address token) amount) ;;
  document <- json_of quoteResponse ;;
  quote <- members_of "expectedOutput" document ;;
  let minimumAmountOut := minimumAmountOut (expectedOutput quote) in
  to <- await (getAddress walletClient) ;;
  emit (SwapCall minimumAmountOut path to deadline amount) ;;
  tx <- await (swapExactETHForTokens router minimumAmountOut path to
                 deadline amount) ;;
  receipt <- await (wait tx) ;;
  emit (ConsoleLog "Trade executed: Bought " (symbol token) amount) ;;
  ret {| trade_success := true;
         trade_hash := hash receipt;
         trade_amount := amount;
         trade_token := symbol token |}.

Definition tradeError (error : exn) : exn :=
  Error ("Failed to execute trade: " ++ message error).

Definition executeTrade (net : Network) (walletClient : WalletClient)
    (token : Token) (amount : number) : M journal TradeResult :=
  try_catch
    (tradeSteps net walletClient token amount)
    (fun error =>
       emit (ConsoleError "Trade execution failed for " (symbol token) error) ;;
       throw (tradeError error)).

(** ** TradingPlugin: the tool [find_and_trade_base_tokens] *)

(** [String(result)] for a result of [executeTrade]: the object literal has
    no [toString] of its own, and a plain object converts to this text. *)
Definition TradeResult_toString (result : TradeResult) : string :=
  "[object Object]".

(** [texts.join(separator)] *)
Fixpoint join (separator : string) (texts : list string) : string :=
  match texts with
  | [] => EmptyString
  | [text] => text
  | text :: rest => (text ++ separator ++ join separator rest)%string
  end.

(** The loop [for (let token of profitableTokens)]: [token] is the analysed
    object, whose [address] and [symbol] are those of the token it spreads. *)
Fixpoint trade_each (net : Network) (walletClient : WalletClient)
    (amount : number) (profitableTokens : list AnalyzedToken)
    (results : list TradeResult) : M journal (list TradeResult) :=
  match profitableTokens with
  | [] => ret results
  | token :: rest =>
      result <- executeTrade net walletClient (token_of token) amount ;;
      trade_each net walletClient amount rest (results ++ [result])
  end.

(** The [method] of the tool; [parameters_amount] is [parameters.amount],
    [None] when the caller leaves it out. *)
Definition find_and_trade_base_tokens (net : Network)
    (walletClient : WalletClient) (parameters_amount : option number)
  : M journal string :=
  let amount :=
    match parameters_amount with
    | Some amount => amount
    | None => 1%float
    end in
  availableTokens <- fetchTokensOnBase net ;;
  profitableTokens <- analyzeTokens net availableTokens ;;
  results <- trade_each net walletClient amount profitableTokens [] ;;
  ret ("Trades executed: "
         ++ join ", " (map TradeResult_toString results))%string.

End Trading.

(* ====================================================================== *)
(** * The AutoClient wrapper ([packages/client-auto/src/index.ts]) *)
(* ====================================================================== *)

Module AutoClient.

Open Scope js_scope.
Open Scope string_scope.

(** The plugin built by [createRabbiTraderPlugin] is a collaborator: each of
    its operations is given by its outcome; [onStart] and [cleanup] are
    optional members. *)
Record Plugin : Type := mkPlugin {
  plugin_initialize : outcome unit;
  plugin_start : outcome unit;
  plugin_onStart : option (outcome unit);
  plugin_cleanup : option (outcome unit)
}.

(** The host runtime, as far as the wrapper uses it: what the call of
    [createRabbiTraderPlugin(getSetting, runtime)] yields ([None] when it
    resolves to [undefined]). *)
Record IAgentRuntime : Type := mkRuntime {
  createRabbiTraderPlugin : outcome (option Plugin)
}.

Inductive operation : Type :=
| op_create | op_initialize | op_start | op_onStart | op_cleanup.

Inductive event : Type :=
| Log (text : string)
| LogError (text : string) (error : exn)
| Invoked (op : operation)
| ClearInterval (timer : nat).

(** The fields of an [AutoClient], the journal of what it did, and the
    rejections of promises that nobody awaits. *)
Record Client : Type := mkClient {
  interval : option nat;
  runtime : IAgentRuntime;
  plugin : option Plugin;
  journal : list event;
  unhandled : list exn
}.

Definition emit (e : event) : M Client unit :=
  modify (fun c => mkClient (interval c) (runtime c) (plugin c)
                     (journal c ++ [e]) (unhandled c)).

Definition set_plugin (p : option Plugin) : M Client unit :=
  modify (fun c => mkClient (interval c) (runtime c) p
                     (journal c) (unhandled c)).

Definition set_interval (i : option nat) : M Client unit :=
  modify (fun c => mkClient i (runtime c) (plugin c)
                     (journal c) (unhandled c)).

(** Calling an operation of a collaborator: the call is journalled, then its
    outcome is awaited. *)
Definition invoke {A} (op : operation) (o : outcome A) : M Client A :=
  emit (Invoked op) ;; await o.

(** [this.plugin.m] when [this.plugin] may be [undefined]. *)
Definition this_plugin (reading : string) : M Client Plugin :=
  c <- get ;;
  match plugin c with
  | Some p => ret p
  | None =>
      throw (TypeError ("Cannot read properties of undefined (reading '"
                          ++ reading ++ "')"))
  end.

(** Calling an asynchronous function without awaiting it: the caller goes
    on whatever the promise settles to, and a rejection of the promise
    reaches no handler.  The journal holds what the function does by the
    time its promise has settled. *)
Definition detached {A} (m : M Client A) : M Client unit :=
  fun c =>
    match m c with
    | (Returns _, c') => (Returns tt, c')
    | (Throws e, c') =>
        (Returns tt,
         mkClient (interval c') (runtime c') (plugin c') (journal c')
           (unhandled c' ++ [e]))
    end.

Definition initializePlugin : M Client unit :=
  try_catch
    (emit (Log "Initializing Rabbi Trader plugin in AutoClient...") ;;
     c <- get ;;
     created <- invoke op_create (createRabbiTraderPlugin (runtime c)) ;;
     set_plugin created ;;
     emit (Log "Plugin created, initializing...") ;;
     p <- this_plugin "initialize" ;;
     invoke op_initialize (plugin_initialize p) ;;
     emit (Log "Plugin initialized, starting...") ;;
     p <- this_plugin "start" ;;
     invoke op_start (plugin_start p) ;;
     p <- this_plugin "onStart" ;;
     match plugin_onStart p with
     | Some hook =>
         emit (Log "Triggering plugin onStart...") ;;
         invoke op_onStart hook
     | None => ret tt
     end ;;
     emit (Log "Rabbi Trader plugin fully initialized and started in AutoClient"))
    (fun error =>
       emit (LogError "Failed to initialize Rabbi Trader plugin in AutoClient:"
               error) ;;
       throw error).

Definition initialize : M Client unit :=
  try_catch
    (emit (Log "AutoClient initialization started") ;;
     initializePlugin ;;
     emit (Log "AutoClient initialization completed"))
    (fun error =>
       emit (LogError "AutoClient initialization failed:" error) ;;
       throw error).

(** [constructor(runtime)]: [this.initialize()] is called and its promise is
    dropped. *)
Definition constructor : M Client unit :=
  emit (Log "AutoClient constructor called") ;;
  detached initialize.

(** [new AutoClient(runtime)]: the fields start at their initialisers. *)
Definition new_AutoClient (rt : IAgentRuntime) : outcome unit * Client :=
  constructor (mkClient None rt None [] []).

Definition stop : M Client unit :=
  emit (Log "Stopping AutoClient...") ;;
  try_catch
    (c <- get ;;
     match interval c with
     | Some timer => emit (ClearInterval timer) ;; set_interval None
     | None => ret tt
     end ;;
     c <- get ;;
     match plugin c with
     | Some p =>
         match plugin_cleanup p with
         | Some hook => invoke op_cleanup hook
         | None => ret tt
         end
     | None => ret tt
     end ;;
     emit (Log "AutoClient stopped successfully"))
    (fun error =>
       emit (LogError "Error stopping AutoClient:" error) ;;
       throw error).

(** [AutoClientInterface.start]: resolves to the constructed client. *)
Definition AutoClientInterface_start (rt : IAgentRuntime)
  : outcome Client * Client :=
  match new_AutoClient rt with
  | (Returns _, client) =>
      let client :=
        mkClient (interval client) (runtime client) (plugin client)
          (Log "Starting AutoClient interface..." :: journal client)
          (unhandled client) in
      (Returns client, client)
  | (Throws e, client) => (Throws e, client)
  end.

(** [AutoClientInterface.stop]: logs, then stops the client registered as
    ["auto"], when there is one.  The first component is what the interface
    itself logs. *)
Definition AutoClientInterface_stop (registered : option Client)
  : list event * option (outcome unit * Client) :=
  ([Log "Stopping AutoClient interface..."],
   match registered with
   | Some client => Some (stop client)
   | None => None
   end).

End AutoClient.

(* ====================================================================== *)
(** * The properties, in the words of the specification *)
(* ====================================================================== *)

Module Spec.

Import Trading.

(** ** Volatility: population standard deviation of the simple returns *)

(** The simple returns [(p[i] - p[i-1]) / p[i-1]] for [i = 1 .. n-1]. *)
Definition simple_returns (p : list number) : list number :=
  map (fun i => ((nth i p PrimFloat.nan - nth (i - 1) p PrimFloat.nan)
                   / nth (i - 1) p PrimFloat.nan)%float)
      (seq 1 (List.length p - 1)).

(** Sums run from the first element to the last, starting at 0. *)
Definition total (xs : list number) : number :=
  fold_left PrimFloat.add xs 0%float.

Definition mean (xs : list number) : number :=
  (total xs / number_of_length (List.length xs))%float.

(** Mean of the squared deviations from the mean, square-rooted; the divisor
    is the count. *)
Definition population_std (xs : list number) : number :=
  PrimFloat.sqrt
    (mean (map (fun x => ((x - mean xs) * (x - mean xs))%float) xs)).

(** A price that is finite and not zero. *)
Definition finite_nonzero (x : number) : bool :=
  match Prim2SF x with
  | S754_finite _ _ _ => true
  | _ => false
  end.

(** [+0] or [-0]. *)
Definition is_zero (x : number) : Prop := exists s, Prim2SF x = S754_zero s.

(** The largest [length] of an array. *)
Definition max_array_length : Z := 4294967295.

(** ** Classification policies *)

Definition relaxed_applies (m : TokenMetrics) : bool :=
  PrimFloat.ltb 0.10 (volatility m) && PrimFloat.ltb 0.50 (volumeToLiquidity m).

Definition relaxed_policy (m : TokenMetrics) : bool :=
  PrimFloat.leb 25000 (liquidityUSD m)
  && PrimFloat.leb 15000 (volume24h m)
  && PrimFloat.ltb (priceChange24h m) (-3).

Definition standard_policy (m : TokenMetrics) : bool :=
  PrimFloat.leb 100000 (liquidityUSD m)
  && PrimFloat.leb 50000 (volume24h m)
  && PrimFloat.ltb (priceChange24h m) 0.

Definition passes (m : TokenMetrics) : bool :=
  if relaxed_applies m then relaxed_policy m else standard_policy m.

Definition risk (m : TokenMetrics) : RiskProfile :=
  if PrimFloat.ltb 0.10 (volatility m) then high else standard.

(** ** Failures of the requests *)

Definition is_null (j : json) : bool :=
  match j with
  | JNull => true
  | _ => false
  end.

(** The catalog request fails: network error, non-success status, malformed
    payload, a payload that is not an array, or an array with a [null] in
    the place of a token. *)
Definition catalog_failure (net : Network) : bool :=
  match tokenList net with
  | Rejected _ => true
  | Responded r =>
      negb (ok r)
      || match content r with
         | Malformed _ => true
         | Parsed (JArr items) => existsb is_null items
         | Parsed _ => true
         end
  end.

(** What the metrics request of a token comes to: the members of the
    document, or the failure (network error, malformed payload, or the
    document [null], which has no members). *)
Definition metrics_document (net : Network) (token : Token)
  : outcome RawMetrics :=
  match tokenMetrics net (address token) with
  | Rejected e => Throws e
  | Responded r =>
      match content r with
      | Malformed e => Throws e
      | Parsed PNull => Throws (null_read "historicalPrices")
      | Parsed (PObject raw) => Returns raw
      end
  end.

Definition metrics_fetch_fails (net : Network) (token : Token) : bool :=
  match metrics_document net token with
  | Throws _ => true
  | Returns _ => false
  end.

(** The analysis of one token: a token whose metrics were fetched is kept
    when it passes the policy that applies to it, and tagged with its risk. *)
Definition analysis_of (net : Network) (token : Token) : option AnalyzedToken :=
  match metrics_document net token with
  | Returns raw =>
      let m := metricsFrom raw in
      if passes m then Some (mkAnalyzed token (risk m) m) else None
  | Throws _ => None
  end.

(** An absent or falsy member ([undefined], [null], [0], [-0], [NaN]). *)
Definition falsy (v : field) : bool :=
  match v with
  | Num x => negb (truthy x)
  | _ => true
  end.

(** ** Trade execution *)

Definition minimum_amount_out (expected : number) : number :=
  Math_floor (expected * (1 - 0.005))%float.

(** The first step of a trade that fails, in the order of execution:
    contract lookup, quote request, quote payload, wallet address, contract
    invocation, receipt. *)
Definition first_failure (net : Network) (w : WalletClient) (token : Token)
    (amount : number) : option exn :=
  match getContract w routerAddress with
  | Throws e => Some e
  | Returns router =>
  match quoteFor net (address token) amount with
  | Rejected e => Some e
  | Responded r =>
  match content r with
  | Malformed e => Some e
  | Parsed PNull => Some (null_read "expectedOutput")
  | Parsed (PObject quote) =>
  match getAddress w with
  | Throws e => Some e
  | Returns to =>
  match swapExactETHForTokens router
          (minimum_amount_out (ToNumber (expectedOutput quote)))
          [Some (JStr WETH_ADDRESS); address token] to
          (Math_floor (Date_now net / 1000) + 1800)%float amount with
  | Throws e => Some e
  | Returns tx =>
  match wait tx with
  | Throws e => Some e
  | Returns _ => None
  end end end end end end.

(** [text] contains [part]. *)
Definition mentions (text part : string) : bool :=
  match String.index 0 part text with
  | Some _ => true
  | None => false
  end.

(** ** Stopping the wrapper *)

(** The journal entry of a call of the plugin's [start()]. *)
Definition is_start (e : AutoClient.event) : bool :=
  match e with
  | AutoClient.Invoked AutoClient.op_start => true
  | _ => false
  end.

(** [stop()] raises exactly when the plugin exists and its [cleanup] hook
    raises. *)
Definition stop_outcome (c : AutoClient.Client) : outcome unit :=
  match AutoClient.plugin c with
  | Some p =>
      match AutoClient.plugin_cleanup p with
      | Some (Throws e) => Throws e
      | _ => Returns tt
      end
  | None => Returns tt
  end.

(** ** The analyzer's output *)

(** The token is kept by the analysis. *)
Definition kept (net : Network) (token : Token) : bool :=
  match analysis_of net token with
  | Some _ => true
  | None => false
  end.

(** ** The journal of the trading plugin *)

Definition is_swap (e : Trading.event) : bool :=
  match e with
  | SwapCall _ _ _ _ _ => true
  | _ => false
  end.

(** The contract calls of a journal, in order. *)
Definition swaps (j : journal) : list Trading.event := filter is_swap j.

(** The console errors of a journal, in order. *)
Definition console_errors (j : journal) : list Trading.event :=
  filter (fun e => match e with ConsoleError _ _ _ => true | _ => false end) j.

(** The swap that a trade of [token] submits: none unless the contract
    lookup, the quote and the wallet address all succeeded. *)
Definition submitted (net : Network) (w : WalletClient) (amount : number)
    (token : Token) : list Trading.event :=
  match getContract w routerAddress with
  | Throws _ => []
  | Returns _ =>
  match quoteFor net (address token) amount with
  | Rejected _ => []
  | Responded r =>
  match content r with
  | Malformed _ => []
  | Parsed PNull => []
  | Parsed (PObject quote) =>
  match getAddress w with
  | Throws _ => []
  | Returns to =>
      [SwapCall (minimum_amount_out (ToNumber (expectedOutput quote)))
         [Some (JStr WETH_ADDRESS); address token] to
         (Math_floor (Date_now net / 1000) + 1800)%float amount]
  end end end end.

(** ** The tool *)

(** The tokens that [fetchTokensOnBase] yields. *)
Definition available (net : Network) : list Token :=
  match result (fetchTokensOnBase net []) with
  | Returns tokens => tokens
  | Throws _ => []
  end.

(** The tokens that the tool goes on to trade. *)
Definition profitable (net : Network) : list AnalyzedToken :=
  filter_not_null (map (analysis_of net) (available net)).

(** The failure of the first trade that fails, in the order of [tokens]. *)
Fixpoint batch_failure (net : Network) (w : WalletClient) (amount : number)
    (tokens : list Token) : option exn :=
  match tokens with
  | [] => None
  | token :: rest =>
      match first_failure net w token amount with
      | Some cause => Some cause
      | None => batch_failure net w amount rest
      end
  end.

(** The tokens whose trade is attempted: all up to and including the first
    whose trade fails. *)
Fixpoint attempted (net : Network) (w : WalletClient) (amount : number)
    (tokens : list Token) : list Token :=
  match tokens with
  | [] => []
  | token :: rest =>
      token :: match first_failure net w token amount with
               | Some _ => []
               | None => attempted net w amount rest
               end
  end.

(** ** Start-up of the wrapper *)

(** The operations of the plugin that a journal records, in order. *)
Definition invoked (j : list AutoClient.event) : list AutoClient.operation :=
  flat_map (fun e => match e with
                     | AutoClient.Invoked op => [op]
                     | _ => []
                     end) j.

(** The errors that a journal logs, in order. *)
Definition logged_errors (j : list AutoClient.event) : list exn :=
  flat_map (fun e => match e with
                     | AutoClient.LogError _ error => [error]
                     | _ => []
                     end) j.

(** The operations that the start-up sequence reaches, and the error that
    ends it, if any: create, initialize, start, then [onStart] when the
    plugin has one. *)
Definition startup (rt : AutoClient.IAgentRuntime)
  : list AutoClient.operation * option exn :=
  match AutoClient.createRabbiTraderPlugin rt with
  | Throws e => ([AutoClient.op_create], Some e)
  | Returns None =>
      ([AutoClient.op_create],
       Some (TypeError
               "Cannot read properties of undefined (reading 'initialize')"))
  | Returns (Some p) =>
  match AutoClient.plugin_initialize p with
  | Throws e => ([AutoClient.op_create; AutoClient.op_initialize], Some e)
  | Returns _ =>
  match AutoClient.plugin_start p with
  | Throws e =>
      ([AutoClient.op_create; AutoClient.op_initialize; AutoClient.op_start],
       Some e)
  | Returns _ =>
  match AutoClient.plugin_onStart p with
  | None =>
      ([AutoClient.op_create; AutoClient.op_initialize; AutoClient.op_start],
       None)
  | Some hook =>
      ([AutoClient.op_create; AutoClient.op_initialize; AutoClient.op_start;
        AutoClient.op_onStart],
       match hook with
       | Throws e => Some e
       | Returns _ => None
       end)
  end end end end.

(** The calls of [cleanup] that one [stop()] makes. *)
Definition cleanup_calls (c : AutoClient.Client) : list AutoClient.operation :=
  match AutoClient.plugin c with
  | Some p =>
      match AutoClient.plugin_cleanup p with
      | Some _ => [AutoClient.op_cleanup]
      | None => []
      end
  | None => []
  end.

(** What [analyzeTokens] writes to the console for a token: the failure of
    its metrics request, if it fails. *)
Definition metrics_log (net : Network) (token : Token) : list Trading.event :=
  match metrics_document net token with
  | Throws e => [ConsoleError "Error fetching metrics for " (symbol token) e]
  | Returns _ => []
  end.

(** What a trade of [token] writes to the console when it fails. *)
Definition trade_log (net : Network) (w : WalletClient) (amount : number)
    (token : Token) : list Trading.event :=
  match first_failure net w token amount with
  | Some cause => [ConsoleError "Trade execution failed for " (symbol token) cause]
  | None => []
  end.

(** [parameters.amount], or its default 1. *)
Definition amount_of (parameters_amount : option number) : number :=
  match parameters_amount with
  | Some amount => amount
  | None => 1%float
  end.

(** The text that the tool returns after [n] trades. *)
Definition summary (n : nat) : string :=
  ("Trades executed: " ++ join ", " (repeat "[object Object]" n))%string.

(** ** Integers as numbers, and the exact value of a finite number *)

(** The integer [z] as a number. *)
Definition integer (z : Z) : number :=
  if (z <? 0)%Z
  then PrimFloat.opp (PrimFloat.of_uint63 (Uint63.of_Z (- z)))
  else PrimFloat.of_uint63 (Uint63.of_Z z).

(** The finite number of sign [s], mantissa [m] and exponent [e] is
    [signed_mantissa s m * 2^e]. *)
Definition signed_mantissa (s : bool) (m : positive) : Z :=
  if s then Z.neg m else Z.pos m.

(** The number is an integer already, or is not finite: [Math.floor] has
    nothing to cut. *)
Definition integral_or_not_finite (x : number) : bool :=
  match Prim2SF x with
  | S754_finite _ _ e => (0 <=? e)%Z
  | _ => true
  end.

(** ** The tokens of the registry *)

(** The value of the member [key] of an element of the registry that is not
    [null]: elements that are not objects have none of the members. *)
Definition read (element : json) (key : string) : value :=
  match element with
  | JObj members => lookup key members
  | _ => undefined
  end.

(** The token made of an element of the registry. *)
Definition token_from (element : json) : Token :=
  mkToken (read element "symbol") (read element "address")
          (read element "decimals") (read element "name").

End Spec.

(* ====================================================================== *)
(** * Concrete tokens, networks and wallets *)
(* ====================================================================== *)

Module Samples.

Import Trading.
Open Scope string_scope.

Definition usdc : Token := nth 0 fallbackTokens (mkToken None None None None).
Definition weth : Token := nth 1 fallbackTokens (mkToken None None None None).
Definition btc : Token := nth 2 fallbackTokens (mkToken None None None None).
Definition sol : Token := nth 3 fallbackTokens (mkToken None None None None).

Definition answered {A} (a : A) : reply (payload A) :=
  Responded (Response true (Parsed (PObject a))).

(** A volatile token in a dip: passes the relaxed policy. *)
Definition dipping : RawMetrics :=
  mkRaw (Num 1) (Num 20000) (Num (-5)) (Num 30000)
        (Some [100; 115; 100; 115; 100; 115]%float).

(** Metrics with a volume and no liquidity. *)
Definition illiquid : RawMetrics :=
  mkRaw (Num 1) (Num 20000) (Num (-5)) (Num 0) None.

(** A document without any of the numeric members. *)
Definition blank : RawMetrics := mkRaw Absent Null (Num 0) (Num (-0)) None.

Definition is_address (a : value) (text : string) : bool :=
  match a with
  | Some (JStr s) => String.eqb s text
  | _ => false
  end.

(** The catalog is unreachable; the metrics request of WETH times out, the
    one of BTC has no liquidity, the one of SOL is blank, the others dip;
    every quote expects 1000. *)
Definition net : Network :=
  mkNetwork
    (Rejected (Error "fetch failed"))
    (fun a =>
       if is_address a WETH_ADDRESS then Rejected (Error "timeout")
       else if is_address a "0x236aa50979D5f3De3Bd1Eeb40E81137F22ab794b"
       then answered illiquid
       else if is_address a "0x1C6aE197fF4BF7BA96726FB6633cc0A8B0d169C8"
       then answered blank
       else answered dipping)
    (fun _ _ => answered (mkQuote (Num 1000)))
    1700000000000.

(** The same network with a quote service that is down. *)
Definition net_without_quotes : Network :=
  mkNetwork (tokenList net) (tokenMetrics net)
    (fun _ _ => Rejected (Error "network down")) (Date_now net).

Definition receipt : Receipt := mkReceipt (Some (JStr "0xabc")).

Definition router : Router :=
  mkRouter (fun _ _ _ _ _ => Returns (mkTransaction (Returns receipt))).

Definition wallet : WalletClient :=
  mkWallet (fun _ => Returns router) (Returns (Some (JStr "0xme"))).

(** A plugin that cannot be initialised and whose [cleanup] refuses to run
    on a plugin that was not started. *)
Definition stubborn : AutoClient.Plugin :=
  AutoClient.mkPlugin (Throws (Error "init failed")) (Returns tt) None
    (Some (Throws (Error "not running"))).

Definition stubborn_runtime : AutoClient.IAgentRuntime :=
  AutoClient.mkRuntime (Returns (Some stubborn)).

(** A runtime in which the plugin cannot even be created. *)
Definition barren_runtime : AutoClient.IAgentRuntime :=
  AutoClient.mkRuntime (Throws (Error "no settings")).

End Samples.

(* ====================================================================== *)
(** * Facts about the trading plugin *)
(* ====================================================================== *)

Module TradingFacts.

Import Trading Spec.
Open Scope float_scope.

(** ** Binary64 arithmetic on zeros and on array lengths *)

Lemma digits2_pos_size p : digits2_pos p = Pos.size p.
Proof. induction p; simpl; congruence. Qed.

Lemma digits2_pos_iter_xO k p :
  digits2_pos (Pos.iter xO p k) = (digits2_pos p + k)%positive.
Proof.
  revert p. induction k using Pos.peano_ind; intros p.
  - simpl. lia.
  - rewrite Pos.iter_succ. simpl. rewrite IHk. lia.
Qed.

Lemma digits2_pos_bound p :
  (Z.pos p < 2 ^ 53)%Z -> (Z.pos (digits2_pos p) <= 53)%Z.
Proof.
  intros H. rewrite digits2_pos_size.
  pose proof (Pos.size_le p) as Hle.
  destruct (Z.le_gt_cases (Z.pos (Pos.size p)) 53) as [|Hgt];
    [assumption|exfalso].
  assert (2 ^ 54 <= 2 ^ Z.pos (Pos.size p))%Z
    by (apply Z.pow_le_mono_r; lia).
  assert (Z.pos (2 ^ Pos.size p) = 2 ^ Z.pos (Pos.size p))%Z
    by (rewrite Pos2Z.inj_pow; reflexivity).
  assert (Z.pos (2 ^ Pos.size p) <= Z.pos (p~0))%Z
    by (apply Pos2Z.pos_le_pos; exact Hle).
  change (2 ^ 54)%Z with (2 * 2 ^ 53)%Z in *. lia.
Qed.

(** A mantissa of 53 digits with a small exponent needs no rounding. *)
Lemma binary_round_aux_exact mz ez :
  Z.pos (digits2_pos mz) = 53%Z -> (-52 <= ez <= 0)%Z ->
  binary_round_aux prec emax false (Z.pos mz) ez loc_Exact
  = S754_finite false mz ez.
Proof.
  intros Hmz Hez. unfold binary_round_aux, shr_fexp. simpl Zdigits2.
  assert (Hz : (fexp prec emax (Z.pos (digits2_pos mz) + ez) - ez = 0)%Z).
  { rewrite Hmz. unfold fexp, emin, prec, emax. lia. }
  match goal with
  | |- context [shr _ _ ?n] => replace n with 0%Z by (symmetry; exact Hz)
  end.
  cbn [shr shr_record_of_loc shr_m loc_of_shr_record round_nearest_even
       Zdigits2].
  match goal with
  | |- context [shr _ _ ?n] => replace n with 0%Z by (symmetry; exact Hz)
  end.
  cbn [shr shr_record_of_loc shr_m].
  replace (ez <=? emax - prec)%Z with true; [reflexivity|].
  symmetry. apply Z.leb_le. unfold emax, prec. lia.
Qed.

(** A positive integer below 2^53 is a finite, positive binary64 number. *)
Lemma binary_normalize_small p :
  (Z.pos p < 2 ^ 53)%Z ->
  exists m e,
    binary_normalize prec emax (Z.pos p) 0 false = S754_finite false m e.
Proof.
  intros Hp. pose proof (digits2_pos_bound p Hp) as Hd.
  unfold binary_normalize, binary_round.
  set (d := digits2_pos p) in *.
  assert (Hf : fexp prec emax (Z.pos d + 0) = (Z.pos d - 53)%Z).
  { unfold fexp, emin, prec, emax. lia. }
  rewrite Hf. unfold shl_align.
  destruct (Z.pos d - 53 - 0)%Z eqn:E.
  - exists p, 0%Z. apply binary_round_aux_exact; [fold d; lia | lia].
  - lia.
  - eexists _, _. apply binary_round_aux_exact.
    + rewrite digits2_pos_iter_xO. fold d. lia.
    + lia.
Qed.

Lemma number_of_length_finite n :
  (1 <= n)%nat -> (Z.of_nat n <= max_array_length)%Z ->
  exists m e, Prim2SF (number_of_length n) = S754_finite false m e.
Proof.
  unfold max_array_length. intros H1 H2.
  unfold number_of_length. rewrite of_uint63_spec, Uint63.of_Z_spec.
  rewrite Z.mod_small by (unfold wB; simpl; lia).
  destruct (Z.of_nat n) eqn:E; try lia.
  apply binary_normalize_small.
  change (2 ^ 53)%Z with 9007199254740992%Z. lia.
Qed.

Lemma sub_diag_finite c : finite_nonzero c = true -> c - c = 0.
Proof.
  unfold finite_nonzero. destruct (Prim2SF c) eqn:E; try discriminate.
  intros _. apply Prim2SF_inj. rewrite FloatAxioms.sub_spec, E.
  unfold SF64sub, SFsub.
  replace (Z.sub _ _) with 0%Z; [reflexivity|].
  symmetry. apply Z.sub_diag.
Qed.

Lemma zero_div_finite c : finite_nonzero c = true -> is_zero (0 / c).
Proof.
  unfold finite_nonzero. destruct (Prim2SF c) eqn:E; try discriminate.
  intros _. eexists. rewrite FloatAxioms.div_spec, E. reflexivity.
Qed.

Lemma zero_div_length n :
  (1 <= n)%nat -> (Z.of_nat n <= max_array_length)%Z ->
  0 / number_of_length n = 0.
Proof.
  intros H1 H2. destruct (number_of_length_finite n H1 H2) as (m & e & Hn).
  apply Prim2SF_inj. rewrite FloatAxioms.div_spec, Hn. reflexivity.
Qed.

Lemma zero_add_zero z : is_zero z -> 0 + z = 0.
Proof.
  intros [s Hz]. apply Prim2SF_inj. rewrite FloatAxioms.add_spec, Hz.
  destruct s; reflexivity.
Qed.

Lemma square_of_zero_deviation z : is_zero z -> Math_pow2 (z - 0) = 0.
Proof.
  intros [s Hz]. apply Prim2SF_inj. unfold Math_pow2.
  rewrite FloatAxioms.mul_spec, FloatAxioms.sub_spec, Hz.
  destruct s; reflexivity.
Qed.

Lemma sum_of_zeros (f : float -> float) xs :
  Forall (fun x => is_zero (f x)) xs ->
  fold_left (fun sum value => sum + f value) xs 0 = 0.
Proof.
  induction 1 as [|x xs Hx _ IH]; [reflexivity|].
  simpl. rewrite (zero_add_zero (f x) Hx). exact IH.
Qed.

(** ** The loop of [calculateVolatility] *)

Lemma returns_loop_map prices k i acc :
  returns_loop prices k i acc =
  acc ++ map (fun j => (at_index prices j - at_index prices (j - 1))
                         / at_index prices (j - 1)) (seq i k).
Proof.
  revert i acc. induction k as [|k IH]; intros i acc; simpl.
  - now rewrite app_nil_r.
  - rewrite IH, <- app_assoc. reflexivity.
Qed.

Lemma returns_loop_simple_returns prices :
  returns_loop prices (List.length prices - 1) 1 [] = simple_returns prices.
Proof. rewrite returns_loop_map. reflexivity. Qed.

Lemma fold_left_through_map {A B C} (g : A -> C -> A) (f : B -> C) xs a :
  fold_left (fun acc x => g acc (f x)) xs a = fold_left g (map f xs) a.
Proof. revert a. induction xs as [|x xs IH]; intros a; simpl; auto. Qed.

Lemma at_index_repeat c n j : (j < n)%nat -> at_index (repeat c n) j = c.
Proof. intros H. unfold at_index. apply nth_repeat_lt. exact H. Qed.

Lemma constant_returns c n :
  finite_nonzero c = true -> (1 <= n)%nat ->
  returns_loop (repeat c n) (n - 1) 1 [] = repeat (0 / c) (n - 1).
Proof.
  intros Hc Hn. rewrite returns_loop_map. simpl.
  assert (H : forall k i, (1 <= i)%nat -> (i + k <= n)%nat ->
    map (fun j => (at_index (repeat c n) j - at_index (repeat c n) (j - 1))
                    / at_index (repeat c n) (j - 1)) (seq i k)
    = repeat (0 / c) k).
  { induction k as [|k IH]; intros i Hi Hik; [reflexivity|].
    cbn [seq map repeat]. rewrite !at_index_repeat by lia.
    rewrite (sub_diag_finite c Hc). f_equal. apply IH; lia. }
  apply H; lia.
Qed.

Lemma short_volatility prices :
  (List.length prices < 2)%nat -> calculateVolatility prices = 0.
Proof.
  intros H. unfold calculateVolatility.
  destruct (Nat.ltb_spec (List.length prices) 2); [reflexivity | lia].
Qed.

Lemma volatility_refines prices :
  (2 <= List.length prices)%nat ->
  calculateVolatility prices = population_std (simple_returns prices).
Proof.
  intros H. unfold calculateVolatility.
  destruct (Nat.ltb_spec (List.length prices) 2) as [|_]; [lia|].
  cbv zeta. rewrite returns_loop_simple_returns.
  unfold population_std, Math_sqrt, Math_pow2. f_equal.
  unfold mean at 1. rewrite length_map. f_equal.
  unfold total.
  exact (fold_left_through_map PrimFloat.add
           (fun x => (x - mean (simple_returns prices))
                     * (x - mean (simple_returns prices)))
           (simple_returns prices) 0).
Qed.

Lemma constant_volatility c n :
  finite_nonzero c = true -> (2 <= n)%nat ->
  (Z.of_nat n <= max_array_length)%Z ->
  calculateVolatility (repeat c n) = 0.
Proof.
  intros Hc Hn Hlen. unfold calculateVolatility.
  rewrite repeat_length.
  destruct (Nat.ltb_spec n 2) as [|_]; [lia|].
  cbv zeta. rewrite (constant_returns c n Hc) by lia. rewrite repeat_length.
  assert (Hz : Forall (fun x => is_zero x) (repeat (0 / c) (n - 1))).
  { apply Forall_forall. intros x Hx. apply repeat_spec in Hx. subst x.
    now apply zero_div_finite. }
  pose proof (sum_of_zeros (fun v => v) _ Hz) as Hsum. cbv beta in Hsum.
  set (mean := fold_left (fun sum value => sum + value) _ 0 / _).
  assert (Hmean : mean = 0).
  { subst mean. rewrite Hsum. apply zero_div_length; lia. }
  clearbody mean. subst mean.
  assert (Hsq : Forall (fun x => is_zero (Math_pow2 (x - 0)))
                  (repeat (0 / c) (n - 1))).
  { eapply Forall_impl; [|exact Hz]. intros z Hzz. cbv beta.
    rewrite square_of_zero_deviation by assumption. now exists false. }
  pose proof (sum_of_zeros (fun v => Math_pow2 (v - 0)) _ Hsq) as Hsum2.
  cbv beta in Hsum2. rewrite Hsum2.
  rewrite zero_div_length by lia.
  reflexivity.
Qed.

(** C4 (amended).  [calculateVolatility] returns exactly 0 for fewer than two
    prices; otherwise it returns the population standard deviation (divisor:
    the count) of the simple returns [(p[i]-p[i-1])/p[i-1]], [i = 1..n-1],
    in binary64 arithmetic; and for a constant sequence of at least two
    prices it returns 0 provided the price is finite and not zero. *)
Theorem calculateVolatility_population_std :
  (forall prices,
      (List.length prices < 2)%nat -> calculateVolatility prices = 0)
  /\ (forall prices,
         (2 <= List.length prices)%nat ->
         calculateVolatility prices = population_std (simple_returns prices))
  /\ (forall c n,
         finite_nonzero c = true -> (2 <= n)%nat ->
         (Z.of_nat n <= max_array_length)%Z ->
         calculateVolatility (repeat c n) = 0).
Proof.
  split; [exact short_volatility|].
  split; [exact volatility_refines | exact constant_volatility].
Qed.

Lemma calculateVolatility_population_std_witness :
  calculateVolatility [7] = 0
  /\ calculateVolatility [100; 110; 99]
     = population_std (simple_returns [100; 110; 99])
  /\ calculateVolatility (repeat 5 3) = 0.
Proof.
  destruct calculateVolatility_population_std as (Hshort & Hstd & Hconst).
  split; [apply Hshort; simpl; lia|].
  split; [apply Hstd; simpl; lia|].
  apply Hconst; [reflexivity | lia | unfold max_array_length; lia].
Defined.

(** C4 (as stated) fails: the constant sequence [0, 0] has the return
    [0/0], and the result is [NaN], not 0. *)
Lemma calculateVolatility_constant_zero_prices :
  PrimFloat.is_nan (calculateVolatility (repeat 0 2)) = true
  /\ calculateVolatility (repeat 0 2) <> 0.
Proof.
  split; [vm_compute; reflexivity|].
  intros H. apply (f_equal PrimFloat.is_nan) in H. vm_compute in H.
  discriminate.
Qed.

(** ** Runs of the analyzer *)

Lemma classify_passes token m :
  classify token m = if passes m then Some (mkAnalyzed token (risk m) m) else None.
Proof. reflexivity. Qed.

Lemma getTokenMetrics_run net token j :
  getTokenMetrics net token j =
  match metrics_document net token with
  | Returns raw => (Returns (Some (metricsFrom raw)), j)
  | Throws e =>
      (Returns None,
       j ++ [ConsoleError "Error fetching metrics for " (symbol token) e])
  end.
Proof.
  unfold getTokenMetrics, metrics_document, try_catch, bind, fetch, json_of.
  destruct (tokenMetrics net (address token)) as [e|[okay [e|[|raw]]]];
    reflexivity.
Qed.

Lemma analyzeToken_run net token j :
  exists j', analyzeToken net token j = (Returns (analysis_of net token), j').
Proof.
  unfold analyzeToken, bind, analysis_of. rewrite getTokenMetrics_run.
  destruct (metrics_document net token) as [raw|e]; eexists; reflexivity.
Qed.

Lemma analyzeTokens_run net tokens j :
  exists j',
    analyzeTokens net tokens j
    = (Returns (filter_not_null (map (analysis_of net) tokens)), j').
Proof.
  unfold analyzeTokens, all, bind.
  assert (H : exists j',
             map_array (analyzeToken net) tokens j
             = (Returns (map (analysis_of net) tokens), j')).
  { revert j. induction tokens as [|t ts IH]; intros j.
    - eexists. reflexivity.
    - cbn [map_array map]. unfold bind.
      destruct (analyzeToken_run net t j) as [j1 ->].
      destruct (IH j1) as [j2 ->]. eexists. reflexivity. }
  destruct H as [j' ->]. eexists. reflexivity.
Qed.

Lemma filter_not_null_app {A} (xs ys : list (option A)) :
  filter_not_null (xs ++ ys) = filter_not_null xs ++ filter_not_null ys.
Proof.
  induction xs as [|[a|] xs IH]; simpl; [reflexivity| |exact IH].
  now rewrite IH.
Qed.

Lemma in_filter_not_null {A} (a : A) xs :
  In a (filter_not_null xs) <-> In (Some a) xs.
Proof.
  induction xs as [|[b|] xs IH]; simpl.
  - tauto.
  - rewrite IH. split; intros [H|H]; auto; left; congruence.
  - rewrite IH. split; [auto|]. intros [H|H]; [discriminate|assumption].
Qed.

(** Every analysed token comes from an input token whose metrics were
    fetched and passed. *)
Lemma analyzed_origin net tokens a :
  In a (filter_not_null (map (analysis_of net) tokens)) ->
  In (token_of a) tokens /\ analysis_of net (token_of a) = Some a.
Proof.
  rewrite in_filter_not_null, in_map_iff. intros (t & Ht & Hin).
  assert (token_of a = t).
  { unfold analysis_of in Ht.
    destruct (metrics_document net t); [|discriminate].
    cbv zeta in Ht.
    destruct (passes _); [|discriminate]. now inversion Ht. }
  subst t. split; assumption.
Qed.

(** C5.  A token with fetched metrics is judged by the relaxed policy
    (liquidityUSD >= 25000, volume24h >= 15000, priceChange24h < -3) exactly
    when volatility > 0.10 and volumeToLiquidity > 0.50, and by the standard
    policy (liquidityUSD >= 100000, volume24h >= 50000, priceChange24h < 0)
    otherwise; a token failing its policy is left out, a surviving token has
    riskProfile 'high' iff volatility > 0.10, else 'standard'.  The two
    examples of the specification are the last two conjuncts. *)
Theorem analyzeTokens_classification :
  (forall token m,
      classify token m
      = if (if PrimFloat.ltb 0.10 (volatility m)
               && PrimFloat.ltb 0.50 (volumeToLiquidity m)
            then relaxed_policy m else standard_policy m)
        then Some (mkAnalyzed token
                     (if PrimFloat.ltb 0.10 (volatility m)
                      then high else standard) m)
        else None)
  /\ (forall net tokens j,
         result (analyzeTokens net tokens j)
         = Returns (filter_not_null (map (analysis_of net) tokens)))
  /\ (forall token p,
         let m := mkMetrics p 20000 (-5) 30000 0.15 0.67 in
         relaxed_applies m = true
         /\ classify token m = Some (mkAnalyzed token high m))
  /\ (forall token p,
         let m := mkMetrics p 60000 (-1) 80000 0.02 0.75 in
         relaxed_applies m = false
         /\ standard_policy m = false
         /\ classify token m = None).
Proof.
  split; [reflexivity|].
  split.
  { intros net tokens j. destruct (analyzeTokens_run net tokens j) as [j' ->].
    reflexivity. }
  split; intros token p; cbv zeta; repeat split; reflexivity.
Qed.

(** C7.  A token whose metrics request fails is absent from the output of
    [analyzeTokens]; the call returns all the same, and its output is the one
    obtained for the other tokens alone. *)
Theorem analyzeTokens_skips_failed_fetch :
  forall net before token after j,
    metrics_fetch_fails net token = true ->
    exists out,
      result (analyzeTokens net (before ++ token :: after) j) = Returns out
      /\ (forall a, In a out -> token_of a <> token)
      /\ result (analyzeTokens net (before ++ after) j) = Returns out.
Proof.
  intros net before token after j Hfail.
  assert (Hnone : analysis_of net token = None).
  { unfold analysis_of. unfold metrics_fetch_fails in Hfail.
    destruct (metrics_document net token); [discriminate | reflexivity]. }
  exists (filter_not_null (map (analysis_of net) (before ++ token :: after))).
  split; [|split].
  - destruct (analyzeTokens_run net (before ++ token :: after) j) as [j' ->].
    reflexivity.
  - intros a Ha Heq. apply analyzed_origin in Ha. destruct Ha as [_ Ha].
    rewrite Heq, Hnone in Ha. discriminate.
  - destruct (analyzeTokens_run net (before ++ after) j) as [j' ->].
    unfold result, fst. f_equal.
    rewrite !map_app, !filter_not_null_app. cbn [map filter_not_null].
    now rewrite Hnone.
Qed.

Lemma analyzeTokens_skips_failed_fetch_witness :
  exists out,
    result (analyzeTokens Samples.net
              ([Samples.usdc] ++ Samples.weth :: [Samples.btc; Samples.sol])
              [])
    = Returns out
    /\ (forall a, In a out -> token_of a <> Samples.weth)
    /\ result (analyzeTokens Samples.net
                 ([Samples.usdc] ++ [Samples.btc; Samples.sol]) [])
       = Returns out.
Proof.
  apply (analyzeTokens_skips_failed_fetch Samples.net [Samples.usdc]
           Samples.weth [Samples.btc; Samples.sol] []).
  vm_compute. reflexivity.
Defined.

(** ** Falsy metrics *)

Lemma falsy_or0 v : falsy v = true -> field_or0 v = 0.
Proof.
  destruct v as [| |x]; [reflexivity|reflexivity|].
  unfold falsy, field_or0, or0. now destruct (truthy x).
Qed.

(** C10.  When the metrics document parses and its members price, volume24h,
    priceChange24h and liquidityUSD are absent or falsy, each is coerced to
    0, and the token is left out of the output of [analyzeTokens]:
    priceChange24h = 0 is neither below -3 nor below 0. *)
Theorem analyzeTokens_excludes_zeroed_metrics :
  forall net token raw,
    metrics_document net token = Returns raw ->
    falsy (raw_price raw) = true ->
    falsy (raw_volume24h raw) = true ->
    falsy (raw_priceChange24h raw) = true ->
    falsy (raw_liquidityUSD raw) = true ->
    (price (metricsFrom raw) = 0
     /\ volume24h (metricsFrom raw) = 0
     /\ priceChange24h (metricsFrom raw) = 0
     /\ liquidityUSD (metricsFrom raw) = 0)
    /\ (forall j, result (analyzeToken net token j) = Returns None)
    /\ (forall tokens j out,
           result (analyzeTokens net tokens j) = Returns out ->
           forall a, In a out -> token_of a <> token).
Proof.
  intros net token raw Hdoc Hp Hv Hc Hl.
  assert (Hchange : priceChange24h (metricsFrom raw) = 0)
    by (apply falsy_or0; exact Hc).
  assert (Hnone : analysis_of net token = None).
  { unfold analysis_of. rewrite Hdoc. cbv zeta.
    unfold passes, relaxed_policy, standard_policy. rewrite Hchange.
    change (PrimFloat.ltb 0 (-3)) with false.
    change (PrimFloat.ltb 0 0) with false.
    rewrite !andb_false_r. now destruct (relaxed_applies _). }
  split; [|split].
  - repeat split; [apply falsy_or0; exact Hp | apply falsy_or0; exact Hv
                   | exact Hchange | apply falsy_or0; exact Hl].
  - intros j. destruct (analyzeToken_run net token j) as [j' ->].
    unfold result, fst. now rewrite Hnone.
  - intros tokens j out Hout a Ha Heq.
    destruct (analyzeTokens_run net tokens j) as [j' Hrun].
    rewrite Hrun in Hout. unfold result, fst in Hout.
    injection Hout as <-. apply analyzed_origin in Ha. destruct Ha as [_ Ha].
    rewrite Heq, Hnone in Ha. discriminate.
Qed.

Lemma analyzeTokens_excludes_zeroed_metrics_witness :
  (price (metricsFrom Samples.blank) = 0
   /\ volume24h (metricsFrom Samples.blank) = 0
   /\ priceChange24h (metricsFrom Samples.blank) = 0
   /\ liquidityUSD (metricsFrom Samples.blank) = 0)
  /\ (forall j, result (analyzeToken Samples.net Samples.sol j) = Returns None)
  /\ (forall tokens j out,
         result (analyzeTokens Samples.net tokens j) = Returns out ->
         forall a, In a out -> token_of a <> Samples.sol).
Proof.
  apply (analyzeTokens_excludes_zeroed_metrics Samples.net Samples.sol
           Samples.blank); vm_compute; reflexivity.
Defined.

(** C1 (code evaluated at the failing input).  With volume24h = 20000 and
    liquidityUSD = 0 the quotient is [Infinity], which is truthy, so the
    fallback of [|| 0] is not taken: volumeToLiquidity is [Infinity].  The
    fallback is taken when the quotient is [NaN] or 0, for instance for
    volume24h = 0. *)
Theorem volumeToLiquidity_without_liquidity :
  result (getTokenMetrics Samples.net Samples.btc [])
  = Returns (Some (metricsFrom Samples.illiquid))
  /\ raw_liquidityUSD Samples.illiquid = Num 0
  /\ liquidityUSD (metricsFrom Samples.illiquid) = 0
  /\ volumeToLiquidity (metricsFrom Samples.illiquid) = PrimFloat.infinity
  /\ volumeToLiquidity (metricsFrom Samples.illiquid) <> 0
  /\ volumeToLiquidity
       (metricsFrom (mkRaw (Num 1) (Num 0) (Num (-5)) (Num 0) None)) = 0.
Proof.
  repeat split; try (vm_compute; reflexivity).
  intros H. apply (f_equal PrimFloat.is_infinity) in H. vm_compute in H.
  discriminate.
Qed.

(** ** The token catalog *)

Lemma toToken_not_null token j :
  is_null token = false -> exists t, toToken token j = (Returns t, j).
Proof. destruct token; try discriminate; intros _; eexists; reflexivity. Qed.

Lemma map_array_null items j :
  existsb is_null items = true ->
  exists e, map_array toToken items j = (Throws e, j).
Proof.
  induction items as [|item items IH]; [discriminate|].
  cbn [existsb map_array]. unfold bind.
  destruct (is_null item) eqn:Hnull; cbn [orb]; intros H.
  - destruct item; try discriminate. eexists. reflexivity.
  - destruct (toToken_not_null item j Hnull) as [t ->].
    destruct (IH H) as [e ->]. eexists. reflexivity.
Qed.

(** C6.  [fetchTokensOnBase] never raises; when the request fails (network
    error, non-success status, malformed payload, a payload that is not an
    array or that holds [null] for a token) it returns the fallback list,
    whose tokens are USDC, WETH, BTC and SOL with their literal addresses and
    decimals. *)
Theorem fetchTokensOnBase_fallback :
  (forall net j, exists tokens j',
      fetchTokensOnBase net j = (Returns tokens, j'))
  /\ (forall net j,
         catalog_failure net = true ->
         result (fetchTokensOnBase net j) = Returns fallbackTokens)
  /\ map (fun t => (symbol t, address t, decimals t)) fallbackTokens
     = [ (Some (JStr "USDC"),
          Some (JStr "0x833589fCD6eDb6E08f4c7C32D4f71b54bdA02913"),
          Some (JNum 6));
         (Some (JStr "WETH"),
          Some (JStr "0x4200000000000000000000000000000000000006"),
          Some (JNum 18));
         (Some (JStr "BTC"),
          Some (JStr "0x236aa50979D5f3De3Bd1Eeb40E81137F22ab794b"),
          Some (JNum 8));
         (Some (JStr "SOL"),
          Some (JStr "0x1C6aE197fF4BF7BA96726FB6633cc0A8B0d169C8"),
          Some (JNum 9)) ].
Proof.
  split; [|split; [|reflexivity]].
  - intros net j. unfold fetchTokensOnBase, try_catch.
    match goal with
    | |- context [match ?run with _ => _ end] => destruct run as [[toks|e] j']
    end; eexists _, _; reflexivity.
  - intros net j. unfold catalog_failure, fetchTokensOnBase, try_catch, bind,
      fetch, json_of.
    destruct (tokenList net) as [e|[okay doc]]; [reflexivity|].
    cbn [ok content]. destruct okay; cbn [negb orb].
    + destruct doc as [e|tokens]; [reflexivity|].
      intros H. destruct tokens as [| | | |items|]; try reflexivity.
      cbn -[map_array toToken fallbackTokens].
      destruct (map_array_null items j H) as [e ->]. reflexivity.
    + reflexivity.
Qed.

Lemma fetchTokensOnBase_fallback_witness :
  result (fetchTokensOnBase Samples.net []) = Returns fallbackTokens.
Proof.
  apply (proj1 (proj2 fetchTokensOnBase_fallback) Samples.net []).
  reflexivity.
Defined.

(** ** Trade execution *)

Lemma tradeSteps_run net w token amount j :
  match first_failure net w token amount with
  | Some cause =>
      exists j', tradeSteps net w token amount j = (Throws cause, j')
  | None =>
      exists h j',
        tradeSteps net w token amount j
        = (Returns (mkTrade true h amount (symbol token)), j')
  end.
Proof.
  unfold first_failure, tradeSteps, bind, await, fetch, json_of, members_of.
  destruct (getContract w routerAddress) as [router|e];
    [|eexists; reflexivity].
  destruct (quoteFor net (address token) amount) as [e|[okay [e|[|quote]]]];
    try (eexists; reflexivity).
  cbn [content ret throw].
  destruct (getAddress w) as [to|e]; [|eexists; reflexivity].
  cbn [emit modify].
  destruct (swapExactETHForTokens _ _ _ _ _ _) as [tx|e];
    [|eexists; reflexivity].
  destruct (wait tx) as [receipt|e]; eexists; try eexists; reflexivity.
Qed.

Lemma tradeError_not_raw cause : tradeError cause <> cause.
Proof.
  destruct cause as [text]. unfold tradeError. cbn [message]. intros H.
  injection H as H. apply (f_equal String.length) in H.
  simpl in H. lia.
Qed.

(** C3 (amended).  Whatever step of [executeTrade] fails first (contract
    lookup, quote request or payload, wallet address, contract invocation,
    receipt), the operation raises one wrapped error whose message is
    "Failed to execute trade: " followed by the message of the cause, never
    the raw error; the token symbol goes with the cause to the console
    only.  When no step fails the trade result is returned. *)
Theorem executeTrade_wraps_failure :
  forall net w token amount j,
    match first_failure net w token amount with
    | Some cause =>
        result (executeTrade net w token amount j)
        = Throws (Error ("Failed to execute trade: " ++ message cause))
        /\ Error ("Failed to execute trade: " ++ message cause) <> cause
        /\ In (ConsoleError "Trade execution failed for " (symbol token) cause)
              (final (executeTrade net w token amount j))
    | None =>
        exists h,
          result (executeTrade net w token amount j)
          = Returns (mkTrade true h amount (symbol token))
    end.
Proof.
  intros net w token amount j.
  pose proof (tradeSteps_run net w token amount j) as Hrun.
  unfold executeTrade, try_catch.
  destruct (first_failure net w token amount) as [cause|].
  - destruct Hrun as [j' ->]. cbn. split; [reflexivity|].
    split; [apply tradeError_not_raw|].
    apply in_or_app. right. left. reflexivity.
  - destruct Hrun as (h & j' & ->). exists h. reflexivity.
Qed.

(** C3 (as stated) fails: when the quote request of USDC is rejected with
    "network down", the error raised is "Failed to execute trade: network
    down", which does not name the token. *)
Lemma executeTrade_error_omits_symbol :
  symbol Samples.usdc = Some (JStr "USDC")
  /\ result (executeTrade Samples.net_without_quotes Samples.wallet
               Samples.usdc 1 [])
     = Throws (Error "Failed to execute trade: network down")
  /\ mentions "Failed to execute trade: network down" "network down" = true
  /\ mentions "Failed to execute trade: network down" "USDC" = false.
Proof. repeat split; vm_compute; reflexivity. Qed.

(** [Math.floor] of a number with a fractional part possible: the result is
    the integer [z] with [z <= x < z + 1], where [x = (+-m) * 2^e]. *)
Lemma Math_floor_fraction x s m e :
  Prim2SF x = S754_finite s m e -> (e < 0)%Z ->
  exists z,
    Math_floor x = integer z
    /\ (z * 2 ^ (- e) <= signed_mantissa s m < (z + 1) * 2 ^ (- e))%Z.
Proof.
  intros Hx He. unfold Math_floor. rewrite Hx.
  destruct (Z.leb_spec 0 e) as [|_]; [lia|].
  rewrite Z.shiftr_div_pow2, Z.shiftl_mul_pow2 by lia.
  set (d := (2 ^ (- e))%Z).
  assert (Hd : (0 < d)%Z) by (apply Z.pow_pos_nonneg; lia).
  pose proof (Z.mul_div_le (Z.pos m) d Hd) as Hle.
  pose proof (Z.mul_succ_div_gt (Z.pos m) d Hd) as Hgt.
  set (q := (Z.pos m / d)%Z) in *.
  assert (Hq : (0 <= q)%Z) by (apply Z.div_pos; lia).
  destruct s; cbn [signed_mantissa].
  - destruct (Z.eqb_spec (q * d) (Z.pos m)) as [Heq|Hne].
    + exists (- q)%Z. split.
      * unfold integer. destruct (Z.ltb_spec (- q) 0) as [_|Hge].
        -- now rewrite Z.opp_involutive.
        -- assert (q = 0)%Z by lia. subst q. nia.
      * change (Z.neg m) with (- Z.pos m)%Z. nia.
    + exists (- (q + 1))%Z. split.
      * unfold integer.
        destruct (Z.ltb_spec (- (q + 1)) 0) as [_|Hge]; [|lia].
        now rewrite Z.opp_involutive.
      * change (Z.neg m) with (- Z.pos m)%Z. nia.
  - exists q. split.
    + unfold integer. destruct (Z.ltb_spec q 0); [lia | reflexivity].
    + nia.
Qed.

(** [Math.floor] leaves integers, zeros, infinities and [NaN] as they are. *)
Lemma Math_floor_integral x :
  integral_or_not_finite x = true -> Math_floor x = x.
Proof.
  unfold integral_or_not_finite, Math_floor.
  destruct (Prim2SF x) as [s|s| |s m e]; try reflexivity.
  now intros ->.
Qed.

(** C8.  [executeTrade] passes to the swap the minimum output
    [floor(expectedOutput * (1 - 0.005))], with the fixed slippage 0.005; for
    expectedOutput = 1000 this is 995 in binary64 arithmetic.  The floor is
    the mathematical one: when the product [p = (+-m) * 2^e] can have a
    fractional part, the minimum is the integer [z] with [z <= p < z + 1];
    an integral or non-finite product is passed unchanged.  So 1001 (product
    995.995) gives 995, 999 (product 994.005) gives 994 and -1001 gives
    -996. *)
Theorem executeTrade_minimumAmountOut :
  slippageTolerance = 0.005
  /\ (forall expected,
         minimumAmountOut expected
         = Math_floor (ToNumber expected * (1 - 0.005)))
  /\ (forall net w token amount j router resp quote to,
         getContract w routerAddress = Returns router ->
         quoteFor net (address token) amount = Responded resp ->
         content resp = Parsed (PObject quote) ->
         getAddress w = Returns to ->
         exists deadline rest,
           final (executeTrade net w token amount j)
           = j ++ SwapCall
                    (Math_floor (ToNumber (expectedOutput quote) * (1 - 0.005)))
                    [Some (JStr WETH_ADDRESS); address token] to deadline amount
                  :: rest)
  /\ Math_floor (1000 * (1 - 0.005)) = 995
  /\ minimumAmountOut (Num 1000) = 995
  /\ (forall expected s m e,
         Prim2SF (ToNumber expected * (1 - 0.005)) = S754_finite s m e ->
         (e < 0)%Z ->
         exists z,
           minimumAmountOut expected = integer z
           /\ (z * 2 ^ (- e) <= signed_mantissa s m
               < (z + 1) * 2 ^ (- e))%Z)
  /\ (forall expected,
         integral_or_not_finite (ToNumber expected * (1 - 0.005)) = true ->
         minimumAmountOut expected = ToNumber expected * (1 - 0.005))
  /\ (1001 * (1 - 0.005) = 995.995 /\ minimumAmountOut (Num 1001) = 995)
  /\ (999 * (1 - 0.005) = 994.005 /\ minimumAmountOut (Num 999) = 994)
  /\ minimumAmountOut (Num (-1001)) = -996.
Proof.
  split; [reflexivity|]. split; [reflexivity|].
  split;
    [|split; [vm_compute; reflexivity|];
      split; [vm_compute; reflexivity|];
      split; [intros expected s m e; apply Math_floor_fraction|];
      split; [intros expected; apply Math_floor_integral|];
      repeat split; vm_compute; reflexivity].
  intros net w token amount j router resp quote to Hc Hq Hd Ha.
  unfold executeTrade, try_catch, tradeSteps, bind, await, fetch, json_of,
    members_of.
  destruct resp as [okay doc]. cbn [content] in Hd. subst doc.
  rewrite Hc. cbn [ret throw]. rewrite Hq. cbn [ret throw content].
  rewrite Ha. cbn [ret throw emit modify].
  destruct (swapExactETHForTokens _ _ _ _ _ _) as [tx|e].
  - destruct (wait tx) as [receipt|e]; cbn; eexists _, _;
      rewrite <- ?app_assoc; reflexivity.
  - cbn. eexists _, _. rewrite <- app_assoc. reflexivity.
Qed.

Lemma executeTrade_minimumAmountOut_witness :
  exists deadline rest,
    final (executeTrade Samples.net Samples.wallet Samples.usdc 1 [])
    = [] ++ SwapCall 995
              [Some (JStr WETH_ADDRESS); address Samples.usdc]
              (Some (JStr "0xme")) deadline 1
            :: rest.
Proof.
  apply (proj1 (proj2 (proj2 executeTrade_minimumAmountOut))
           Samples.net Samples.wallet Samples.usdc 1 [] Samples.router
           (Response true (Parsed (PObject (mkQuote (Num 1000)))))
           (mkQuote (Num 1000)) (Some (JStr "0xme")));
    reflexivity.
Defined.

(** ** Further properties *)

(** X1.  The worked example of the specification: for the prices
    [100, 110, 99] the returns are 0.1 and -0.1, their mean is 0 and the
    volatility is 0.1, exactly, in binary64 arithmetic. *)
Theorem volatility_worked_example :
  simple_returns [100; 110; 99] = [0.1; -0.1]
  /\ mean (simple_returns [100; 110; 99]) = 0
  /\ calculateVolatility [100; 110; 99] = 0.1.
Proof. repeat split; vm_compute; reflexivity. Qed.

Lemma map_array_tokens items j :
  existsb is_null items = false ->
  exists tokens,
    map_array toToken items j = (Returns tokens, j)
    /\ List.length tokens = List.length items.
Proof.
  induction items as [|item items IH]; intros H.
  - exists []. split; reflexivity.
  - cbn [existsb] in H. apply orb_false_iff in H. destruct H as [Hitem Hrest].
    cbn [map_array]. unfold bind.
    destruct (toToken_not_null item j Hitem) as [t ->].
    destruct (IH Hrest) as (ts & -> & Hlen).
    exists (t :: ts). split; [reflexivity|]. simpl. now rewrite Hlen.
Qed.

Lemma toToken_token_from element j :
  is_null element = false ->
  toToken element j = (Returns (token_from element), j).
Proof. destruct element; try discriminate; reflexivity. Qed.

Lemma map_array_token_from items j :
  existsb is_null items = false ->
  map_array toToken items j = (Returns (map token_from items), j).
Proof.
  induction items as [|item items IH]; intros H; [reflexivity|].
  cbn [existsb] in H. apply orb_false_iff in H. destruct H as [Hitem Hrest].
  cbn [map_array map]. unfold bind.
  rewrite (toToken_token_from item j Hitem), (IH Hrest). reflexivity.
Qed.

(** X2.  When the catalog answers with a success status and an array
    without [null], [fetchTokensOnBase] returns one token per element of the
    array, in the order of the array: the token of an element has the
    element's members symbol, address, decimals and name (a missing member,
    or any member of an element that is not an object, is [undefined]; other
    members are dropped).  Nothing is written to the console and the
    fallback list is not used. *)
Theorem fetchTokensOnBase_maps_registry :
  forall net j items,
    tokenList net = Responded (Response true (Parsed (JArr items))) ->
    existsb is_null items = false ->
    fetchTokensOnBase net j = (Returns (map token_from items), j)
    /\ List.length (map token_from items) = List.length items.
Proof.
  intros net j items Hnet Hitems. split; [|apply length_map].
  unfold fetchTokensOnBase, try_catch, bind, fetch, json_of. rewrite Hnet.
  cbn -[map_array toToken fallbackTokens token_from].
  now rewrite (map_array_token_from items j Hitems).
Qed.

Lemma fetchTokensOnBase_maps_registry_witness :
  fetchTokensOnBase
    (mkNetwork
       (Responded
          (Response true
             (Parsed
                (JArr [JObj [("symbol"%string, JStr "DAI");
                             ("extra"%string, JBool true)];
                       JNum 7]))))
       (tokenMetrics Samples.net) (quoteFor Samples.net) 0) []
  = (Returns [mkToken (Some (JStr "DAI")) None None None;
              mkToken None None None None], [])
  /\ List.length [mkToken (Some (JStr "DAI")) None None None;
                  mkToken None None None None] = 2%nat.
Proof.
  apply (fetchTokensOnBase_maps_registry
           (mkNetwork
              (Responded
                 (Response true
                    (Parsed
                       (JArr [JObj [("symbol"%string, JStr "DAI");
                                    ("extra"%string, JBool true)];
                              JNum 7]))))
              (tokenMetrics Samples.net) (quoteFor Samples.net) 0)
           [] [JObj [("symbol"%string, JStr "DAI");
                     ("extra"%string, JBool true)];
               JNum 7]);
    reflexivity.
Defined.

End TradingFacts.

(* ====================================================================== *)
(** * Facts about the AutoClient wrapper *)
(* ====================================================================== *)

Module AutoClientFacts.

Import AutoClient Spec.

Lemma stop_run c : result (stop c) = stop_outcome c.
Proof.
  unfold stop_outcome.
  destruct c as [[timer|] rt [[i s o [[[]|e]|]]|] j u]; reflexivity.
Qed.

Lemma stop_clears_interval c : interval (final (stop c)) = None.
Proof.
  destruct c as [[timer|] rt [[i s o [[[]|e]|]]|] j u]; reflexivity.
Qed.

(** C2 (code evaluated at the failing input).  When the plugin's
    [initialize()] fails, [start()] is not invoked, but the constructing call
    does not raise: [new AutoClient(runtime)] returns, [AutoClientInterface
    .start] resolves to the client, and the failure stays in the promise of
    [this.initialize()], which the constructor drops. *)
Theorem constructor_drops_initialize_failure :
  forall e start onStart cleanup,
    let p := mkPlugin (Throws e) start onStart cleanup in
    let rt := mkRuntime (Returns (Some p)) in
    ~ In (Invoked op_start) (journal (final (new_AutoClient rt)))
    /\ In (Invoked op_initialize) (journal (final (new_AutoClient rt)))
    /\ result (initialize (mkClient None rt None [] [])) = Throws e
    /\ result (new_AutoClient rt) = Returns tt
    /\ returned (result (AutoClientInterface_start rt)) = true
    /\ unhandled (final (new_AutoClient rt)) = [e].
Proof.
  intros e start onStart cleanup p rt. subst p rt.
  split; [|split; [|split; [|split; [|split]]]].
  - cbn. intros H.
    repeat (destruct H as [H|H]; [discriminate H|]). exact H.
  - cbn. auto 10.
  - reflexivity.
  - reflexivity.
  - reflexivity.
  - reflexivity.
Qed.

Lemma stop_journal_failure c p e :
  plugin c = Some p -> plugin_cleanup p = Some (Throws e) ->
  journal (final (stop c))
  = (journal c
       ++ Log "Stopping AutoClient..."
          :: match interval c with
             | Some timer => [ClearInterval timer]
             | None => []
             end
       ++ [Invoked op_cleanup; LogError "Error stopping AutoClient:" e])%list.
Proof.
  destruct c as [[timer|] rt pl j u]; cbn [plugin interval journal];
    intros -> Hc; destruct p as [i s o cl]; cbn [plugin_cleanup] in Hc;
    subst cl; cbn; rewrite <- ?app_assoc; reflexivity.
Qed.

Lemma stop_journal_success c :
  stop_outcome c = Returns tt ->
  logged_errors (journal (final (stop c))) = logged_errors (journal c)
  /\ journal (final (stop c))
     = (journal c
          ++ Log "Stopping AutoClient..."
             :: match interval c with
                | Some timer => [ClearInterval timer]
                | None => []
                end
          ++ map Invoked (cleanup_calls c)
          ++ [Log "AutoClient stopped successfully"])%list.
Proof.
  unfold stop_outcome, cleanup_calls.
  destruct c as [[timer|] rt [[i s o [[[]|e]|]]|] j u];
    cbn [plugin plugin_cleanup interval journal]; try discriminate;
    intros _;
    (split;
     [ cbn -[logged_errors]; unfold logged_errors;
       rewrite ?flat_map_app; cbn; rewrite ?app_nil_r; reflexivity
     | cbn; rewrite <- ?app_assoc; reflexivity ]).
Qed.

(** C9 (amended).  [stop()] raises exactly when the plugin exists and its
    [cleanup] hook raises, and then with the error of the hook; so before any
    successful start it does not raise when the plugin was never created
    (no plugin, no interval), when the plugin has no [cleanup], or when
    [cleanup] completes.  The interval slot is empty afterwards.  When the
    hook raises, [stop()] logs that error ("Error stopping AutoClient:")
    after the call of [cleanup] and raises it again; when [stop()] returns it
    logs no error and its last entry is "AutoClient stopped
    successfully". *)
Theorem stop_before_start :
  (forall c, result (stop c) = stop_outcome c)
  /\ (forall c, plugin c = None -> result (stop c) = Returns tt)
  /\ (forall rt e,
         createRabbiTraderPlugin rt = Throws e ->
         plugin (final (new_AutoClient rt)) = None
         /\ interval (final (new_AutoClient rt)) = None
         /\ result (stop (final (new_AutoClient rt))) = Returns tt)
  /\ (forall c p,
         plugin c = Some p ->
         plugin_cleanup p = None \/ plugin_cleanup p = Some (Returns tt) ->
         result (stop c) = Returns tt)
  /\ (forall c, interval (final (stop c)) = None)
  /\ (forall c p e,
         plugin c = Some p ->
         plugin_cleanup p = Some (Throws e) ->
         result (stop c) = Throws e
         /\ journal (final (stop c))
            = (journal c
                 ++ Log "Stopping AutoClient..."
                    :: match interval c with
                       | Some timer => [ClearInterval timer]
                       | None => []
                       end
                 ++ [Invoked op_cleanup;
                     LogError "Error stopping AutoClient:" e])%list)
  /\ (forall c,
         stop_outcome c = Returns tt ->
         logged_errors (journal (final (stop c))) = logged_errors (journal c)
         /\ journal (final (stop c))
            = (journal c
                 ++ Log "Stopping AutoClient..."
                    :: match interval c with
                       | Some timer => [ClearInterval timer]
                       | None => []
                       end
                 ++ map Invoked (cleanup_calls c)
                 ++ [Log "AutoClient stopped successfully"])%list).
Proof.
  split; [exact stop_run|].
  split.
  { intros c H. rewrite stop_run. unfold stop_outcome. now rewrite H. }
  split.
  { intros [create] e H. cbn in H. subst create. repeat split. }
  split.
  { intros c p Hp Hc. rewrite stop_run. unfold stop_outcome. rewrite Hp.
    destruct Hc as [-> | ->]; reflexivity. }
  split; [exact stop_clears_interval|].
  split; [|exact stop_journal_success].
  intros c p e Hp Hc. split; [|exact (stop_journal_failure c p e Hp Hc)].
  rewrite stop_run. unfold stop_outcome. now rewrite Hp, Hc.
Qed.

Lemma stop_before_start_witness :
  plugin (final (new_AutoClient Samples.barren_runtime)) = None
  /\ interval (final (new_AutoClient Samples.barren_runtime)) = None
  /\ result (stop (final (new_AutoClient Samples.barren_runtime)))
     = Returns tt.
Proof.
  apply (proj1 (proj2 (proj2 stop_before_start)) Samples.barren_runtime
           (Error "no settings")).
  reflexivity.
Defined.

(** C9 (as stated) fails: a plugin was created, its [initialize()] failed,
    so nothing was started; its [cleanup] hook raises, and [stop()] raises
    that error again. *)
Lemma stop_raises_when_cleanup_fails :
  existsb is_start (journal (final (new_AutoClient Samples.stubborn_runtime)))
  = false
  /\ interval (final (new_AutoClient Samples.stubborn_runtime)) = None
  /\ result (stop (final (new_AutoClient Samples.stubborn_runtime)))
     = Throws (Error "not running").
Proof. repeat split. Qed.

End AutoClientFacts.

(* ====================================================================== *)
(** * Further facts about the trading plugin *)
(* ====================================================================== *)

Module PluginFacts.

Import Trading Spec TradingFacts.
Open Scope float_scope.

(** ** Order on binary64 numbers *)

Ltac sf_const c :=
  let v := eval vm_compute in (Prim2SF c) in
  change (Prim2SF c) with v.

Lemma binary_round_aux_not_negative mz ez lz :
  SFltb (binary_round_aux prec emax false mz ez lz) (S754_zero false) = false.
Proof.
  unfold binary_round_aux.
  destruct (shr_fexp prec emax mz ez lz) as [mrs e'].
  destruct (shr_fexp prec emax _ e' loc_Exact) as [mrs' e''].
  destruct (shr_m mrs') as [|m|m]; try reflexivity.
  destruct (Z.leb e'' (emax - prec)); reflexivity.
Qed.

Lemma sqrt_not_negative x : PrimFloat.ltb (PrimFloat.sqrt x) 0 = false.
Proof.
  rewrite FloatAxioms.ltb_spec, FloatAxioms.sqrt_spec.
  change (Prim2SF 0) with (S754_zero false).
  unfold SF64sqrt, SFsqrt.
  destruct (Prim2SF x) as [s|[|]| |[|] m e]; try reflexivity.
  destruct (SFsqrt_core_binary prec emax (Z.pos m) e) as [[mz ez] lz].
  apply binary_round_aux_not_negative.
Qed.

Lemma below_minus3_is_negative x :
  PrimFloat.ltb x (-3) = true -> PrimFloat.ltb x 0 = true.
Proof.
  rewrite !FloatAxioms.ltb_spec. sf_const ((-3)%float). sf_const (0%float).
  destruct (Prim2SF x) as [s|[|]| |[|] m e];
    try reflexivity; try discriminate.
Qed.

(** A positive number with the larger exponent is the larger one. *)
Lemma sf_leb_exponent (m1 m2 : positive) (e1 e2 : Z) x :
  (e2 < e1)%Z ->
  SFleb (S754_finite false m1 e1) x = true ->
  SFleb (S754_finite false m2 e2) x = true.
Proof.
  intros He. unfold SFleb, SFcompare.
  destruct x as [s|[|]| |[|] mx ex]; try reflexivity; try discriminate.
  change (match (e1 ?= ex)%Z with
          | Lt => Lt | Gt => Gt | Eq => Pos.compare_cont Eq m1 mx
          end)
    with (match Z.compare e1 ex with
          | Lt => Lt | Gt => Gt | Eq => Pos.compare_cont Eq m1 mx
          end).
  destruct (Z.compare_spec e1 ex) as [Heq|Hlt|Hgt]; intros H.
  - replace (Z.compare e2 ex) with Lt; [reflexivity|].
    symmetry. apply Z.compare_lt_iff. lia.
  - replace (Z.compare e2 ex) with Lt; [reflexivity|].
    symmetry. apply Z.compare_lt_iff. lia.
  - discriminate.
Qed.

Lemma at_least_100000 x :
  PrimFloat.leb 100000 x = true -> PrimFloat.leb 25000 x = true.
Proof.
  rewrite !FloatAxioms.leb_spec.
  sf_const (100000%float). sf_const (25000%float).
  apply sf_leb_exponent. reflexivity.
Qed.

Lemma at_least_50000 x :
  PrimFloat.leb 50000 x = true -> PrimFloat.leb 15000 x = true.
Proof.
  rewrite !FloatAxioms.leb_spec.
  sf_const (50000%float). sf_const (15000%float).
  apply sf_leb_exponent. reflexivity.
Qed.

Lemma or0_not_nan x : PrimFloat.is_nan (or0 x) = false.
Proof.
  unfold or0, truthy.
  destruct (PrimFloat.eqb x 0); [reflexivity|].
  destruct (PrimFloat.is_nan x) eqn:E; [reflexivity | exact E].
Qed.

Lemma field_or0_not_nan v : PrimFloat.is_nan (field_or0 v) = false.
Proof. destruct v; [reflexivity | reflexivity | apply or0_not_nan]. Qed.

(** ** The volatility and the metrics *)

(** X3.  [calculateVolatility] never returns a negative number: for every
    price sequence the result is [NaN] or not below 0. *)
Theorem calculateVolatility_not_negative :
  forall prices, PrimFloat.ltb (calculateVolatility prices) 0 = false.
Proof.
  intros prices. unfold calculateVolatility.
  destruct (List.length prices <? 2)%nat; [reflexivity|].
  apply sqrt_not_negative.
Qed.

(** X4.  Whatever the metrics document holds, the fields price, volume24h,
    priceChange24h, liquidityUSD and volumeToLiquidity of the object built by
    [getTokenMetrics] are never [NaN] (the [|| 0] fallbacks replace it by
    0); volatility has no fallback and can be [NaN]. *)
Theorem metrics_fields_not_nan :
  (forall raw,
      PrimFloat.is_nan (price (metricsFrom raw)) = false
      /\ PrimFloat.is_nan (volume24h (metricsFrom raw)) = false
      /\ PrimFloat.is_nan (priceChange24h (metricsFrom raw)) = false
      /\ PrimFloat.is_nan (liquidityUSD (metricsFrom raw)) = false
      /\ PrimFloat.is_nan (volumeToLiquidity (metricsFrom raw)) = false)
  /\ PrimFloat.is_nan
       (volatility (metricsFrom (mkRaw Absent Absent Absent Absent
                                   (Some [0; 0]))))
     = true.
Proof.
  split; [|vm_compute; reflexivity].
  intros raw. unfold metricsFrom. cbn [price volume24h priceChange24h
    liquidityUSD volumeToLiquidity].
  repeat split; try apply field_or0_not_nan. apply or0_not_nan.
Qed.

(** X5.  A token whose metrics document has no price history, or a history
    of fewer than two prices, has volatility 0: it is judged by the standard
    policy and, when kept, its riskProfile is 'standard'. *)
Theorem no_history_is_standard :
  forall raw,
    (List.length (match raw_historicalPrices raw with
                  | Some prices => prices
                  | None => []
                  end) < 2)%nat ->
    volatility (metricsFrom raw) = 0
    /\ passes (metricsFrom raw) = standard_policy (metricsFrom raw)
    /\ (forall token a,
           classify token (metricsFrom raw) = Some a ->
           riskProfile a = standard).
Proof.
  intros raw Hshort.
  assert (Hvol : volatility (metricsFrom raw) = 0).
  { unfold metricsFrom. cbn [volatility]. now apply short_volatility. }
  split; [exact Hvol|].
  assert (Hrelaxed : relaxed_applies (metricsFrom raw) = false).
  { unfold relaxed_applies. rewrite Hvol. reflexivity. }
  split.
  - unfold passes. now rewrite Hrelaxed.
  - intros token a. rewrite classify_passes.
    destruct (passes _); [|discriminate].
    intros H. injection H as <-. cbn [riskProfile]. unfold risk.
    rewrite Hvol. reflexivity.
Qed.

Lemma no_history_is_standard_witness :
  volatility (metricsFrom Samples.illiquid) = 0
  /\ passes (metricsFrom Samples.illiquid)
     = standard_policy (metricsFrom Samples.illiquid)
  /\ (forall token a,
         classify token (metricsFrom Samples.illiquid) = Some a ->
         riskProfile a = standard).
Proof.
  apply (no_history_is_standard Samples.illiquid). simpl. lia.
Defined.

Lemma classify_floor token m a :
  classify token m = Some a ->
  token_of a = token /\ metrics a = m
  /\ PrimFloat.leb 25000 (liquidityUSD m) = true
  /\ PrimFloat.leb 15000 (volume24h m) = true
  /\ PrimFloat.ltb (priceChange24h m) 0 = true.
Proof.
  rewrite classify_passes. unfold passes, relaxed_policy, standard_policy.
  destruct (relaxed_applies m);
    match goal with
    | |- context [if ?b then _ else _] => destruct b eqn:Hp
    end; try discriminate;
    intros H; injection H as <-; cbn [token_of metrics];
    apply andb_prop in Hp; destruct Hp as [Hp Hc];
    apply andb_prop in Hp; destruct Hp as [Hl Hv].
  - repeat split; auto using below_minus3_is_negative.
  - repeat split; auto using at_least_100000, at_least_50000.
Qed.

(** X6.  Whichever policy applies, every token in the output of
    [analyzeTokens] is an input token with liquidityUSD >= 25000,
    volume24h >= 15000 and priceChange24h < 0 (its price fell). *)
Theorem analyzed_tokens_floor :
  forall net tokens j out a,
    result (analyzeTokens net tokens j) = Returns out ->
    In a out ->
    In (token_of a) tokens
    /\ PrimFloat.leb 25000 (liquidityUSD (metrics a)) = true
    /\ PrimFloat.leb 15000 (volume24h (metrics a)) = true
    /\ PrimFloat.ltb (priceChange24h (metrics a)) 0 = true.
Proof.
  intros net tokens j out a Hout Ha.
  destruct (analyzeTokens_run net tokens j) as [j' Hrun].
  rewrite Hrun in Hout. unfold result, fst in Hout. injection Hout as <-.
  apply analyzed_origin in Ha. destruct Ha as [Hin Ha].
  split; [exact Hin|].
  unfold analysis_of in Ha.
  destruct (metrics_document net (token_of a)) as [raw|e]; [|discriminate].
  cbv zeta in Ha. rewrite <- classify_passes in Ha.
  apply classify_floor in Ha. destruct Ha as (_ & <- & Hl & Hv & Hc).
  auto.
Qed.

Lemma analyzed_tokens_floor_witness :
  In (token_of (mkAnalyzed Samples.usdc high (metricsFrom Samples.dipping)))
     [Samples.usdc; Samples.weth]
  /\ PrimFloat.leb 25000
       (liquidityUSD
          (metrics (mkAnalyzed Samples.usdc high
                      (metricsFrom Samples.dipping)))) = true
  /\ PrimFloat.leb 15000
       (volume24h
          (metrics (mkAnalyzed Samples.usdc high
                      (metricsFrom Samples.dipping)))) = true
  /\ PrimFloat.ltb
       (priceChange24h
          (metrics (mkAnalyzed Samples.usdc high
                      (metricsFrom Samples.dipping)))) 0 = true.
Proof.
  apply (analyzed_tokens_floor Samples.net [Samples.usdc; Samples.weth] []
           [mkAnalyzed Samples.usdc high (metricsFrom Samples.dipping)]).
  - vm_compute. reflexivity.
  - left. reflexivity.
Defined.

(** ** The output of the analyzer *)

Lemma analysis_token net token a :
  analysis_of net token = Some a -> token_of a = token.
Proof.
  unfold analysis_of. destruct (metrics_document net token); [|discriminate].
  cbv zeta. destruct (passes _); [|discriminate]. intros H. now inversion H.
Qed.

Lemma kept_tokens net tokens :
  map token_of (filter_not_null (map (analysis_of net) tokens))
  = filter (kept net) tokens.
Proof.
  induction tokens as [|t ts IH]; [reflexivity|].
  cbn [map filter_not_null filter]. unfold kept at 1.
  destruct (analysis_of net t) as [a|] eqn:Ha; [|exact IH].
  cbn [map]. rewrite IH. f_equal. now apply analysis_token in Ha.
Qed.

Lemma analyzeTokens_frame net tokens j :
  analyzeTokens net tokens j
  = (Returns (filter_not_null (map (analysis_of net) tokens)),
     j ++ flat_map (metrics_log net) tokens).
Proof.
  unfold analyzeTokens, all, bind.
  assert (H : map_array (analyzeToken net) tokens j
              = (Returns (map (analysis_of net) tokens),
                 j ++ flat_map (metrics_log net) tokens)).
  { revert j. induction tokens as [|t ts IH]; intros j.
    - cbn. now rewrite app_nil_r.
    - cbn [map_array map flat_map]. unfold bind.
      assert (Ht : analyzeToken net t j
                   = (Returns (analysis_of net t), j ++ metrics_log net t)).
      { unfold analyzeToken, bind, analysis_of, metrics_log.
        rewrite getTokenMetrics_run.
        destruct (metrics_document net t) as [raw|e];
          [now rewrite app_nil_r | reflexivity]. }
      rewrite Ht, IH, app_assoc. reflexivity. }
  rewrite H. reflexivity.
Qed.

(** X7.  The output of [analyzeTokens] keeps the order of the input: its
    tokens are the input tokens that the analysis keeps, each once per
    occurrence and in input order; and the console gets, in some order, one
    error per token whose metrics request fails, and nothing else. *)
Theorem analyzeTokens_keeps_order :
  forall net tokens j,
    exists out log,
      result (analyzeTokens net tokens j) = Returns out
      /\ map token_of out = filter (kept net) tokens
      /\ final (analyzeTokens net tokens j) = j ++ log
      /\ Permutation log (flat_map (metrics_log net) tokens)
      /\ List.length log
         = List.length (filter (metrics_fetch_fails net) tokens).
Proof.
  intros net tokens j. rewrite analyzeTokens_frame.
  eexists _, _. split; [reflexivity|]. split; [apply kept_tokens|].
  split; [reflexivity|]. split; [apply Permutation_refl|].
  induction tokens as [|t ts IH]; [reflexivity|].
  cbn [flat_map filter]. rewrite length_app, IH.
  unfold metrics_log, metrics_fetch_fails.
  destruct (metrics_document net t); reflexivity.
Qed.

(** ** The token catalog *)

Lemma toToken_frame token j :
  toToken token j = (fst (toToken token []), j).
Proof. destruct token; reflexivity. Qed.

Lemma catalog_ok net :
  catalog_failure net = false ->
  exists items,
    tokenList net = Responded (Response true (Parsed (JArr items)))
    /\ existsb is_null items = false.
Proof.
  unfold catalog_failure.
  destruct (tokenList net) as [e|[[|] [e|doc]]]; try discriminate.
  destruct doc; try discriminate. cbn. intros H. eexists. split; eauto.
Qed.

(** X8.  [fetchTokensOnBase] never falls back silently and never logs
    otherwise: when the request fails it returns the fallback list and
    writes exactly one console error; when it does not, it returns one token
    per element of the array and writes nothing. *)
Theorem fetchTokensOnBase_logs_fallback :
  forall net j,
    if catalog_failure net
    then exists e,
           fetchTokensOnBase net j
           = (Returns fallbackTokens,
              j ++ [ConsoleError "Error fetching Base tokens:" undefined e])
    else exists items tokens,
           tokenList net = Responded (Response true (Parsed (JArr items)))
           /\ fetchTokensOnBase net j = (Returns tokens, j)
           /\ List.length tokens = List.length items.
Proof.
  intros net j. destruct (catalog_failure net) eqn:Hfail.
  - unfold catalog_failure in Hfail.
    unfold fetchTokensOnBase, try_catch, bind, fetch, json_of.
    destruct (tokenList net) as [e|[okay doc]]; [eexists; reflexivity|].
    cbn [ok content] in *. destruct okay; cbn [negb orb] in Hfail.
    + destruct doc as [e|tokens]; [eexists; reflexivity|].
      destruct tokens as [| | | |items|]; try (eexists; reflexivity).
      cbn -[map_array toToken fallbackTokens].
      destruct (map_array_null items j Hfail) as [e ->].
      eexists. reflexivity.
    + eexists. reflexivity.
  - destruct (catalog_ok net Hfail) as (items & Hnet & Hitems).
    destruct (map_array_tokens items j Hitems) as (tokens & Hmap & Hlen).
    exists items, tokens. split; [exact Hnet|]. split; [|exact Hlen].
    unfold fetchTokensOnBase, try_catch, bind, fetch, json_of. rewrite Hnet.
    cbn -[map_array toToken fallbackTokens]. now rewrite Hmap.
Qed.

(** ** One trade *)

Lemma executeTrade_run net w token amount j :
  executeTrade net w token amount j
  = (result (executeTrade net w token amount []),
     j ++ submitted net w amount token ++ trade_log net w amount token
       ++ match first_failure net w token amount with
          | Some _ => []
          | None => [ConsoleLog "Trade executed: Bought " (symbol token) amount]
          end).
Proof.
  unfold executeTrade, try_catch, tradeSteps, submitted, trade_log,
    first_failure, bind, await, fetch, json_of, members_of, result.
  destruct (getContract w routerAddress) as [router|e];
    [|reflexivity].
  destruct (quoteFor net (address token) amount) as [e|[okay [e|[|quote]]]];
    try reflexivity.
  cbn [content ret throw fst].
  destruct (getAddress w) as [to|e]; [|reflexivity].
  cbn [emit modify fst].
  destruct (swapExactETHForTokens _ _ _ _ _ _) as [tx|e].
  - destruct (wait tx) as [receipt|e]; cbn; rewrite <- ?app_assoc;
      reflexivity.
  - cbn. rewrite <- app_assoc. reflexivity.
Qed.

Lemma executeTrade_result net w token amount j :
  match first_failure net w token amount with
  | Some cause =>
      result (executeTrade net w token amount j) = Throws (tradeError cause)
  | None =>
      exists h,
        result (executeTrade net w token amount j)
        = Returns (mkTrade true h amount (symbol token))
  end.
Proof.
  pose proof (tradeSteps_run net w token amount j) as Hrun.
  unfold executeTrade, try_catch.
  destruct (first_failure net w token amount) as [cause|].
  - destruct Hrun as [j' ->]. reflexivity.
  - destruct Hrun as (h & j' & ->). exists h. reflexivity.
Qed.

Lemma swaps_app j1 j2 : swaps (j1 ++ j2) = swaps j1 ++ swaps j2.
Proof. apply filter_app. Qed.

Lemma swaps_submitted net w amount token :
  swaps (submitted net w amount token) = submitted net w amount token.
Proof.
  unfold submitted.
  destruct (getContract w routerAddress); [|reflexivity].
  destruct (quoteFor net (address token) amount) as [e|[okay [e|[|quote]]]];
    try reflexivity.
  cbn [content]. destruct (getAddress w); reflexivity.
Qed.

Lemma swaps_trade_tail net w amount token :
  swaps (trade_log net w amount token
           ++ match first_failure net w token amount with
              | Some _ => []
              | None =>
                  [ConsoleLog "Trade executed: Bought " (symbol token) amount]
              end) = [].
Proof.
  unfold trade_log. destruct (first_failure net w token amount); reflexivity.
Qed.

Lemma executeTrade_swaps net w token amount j :
  swaps (final (executeTrade net w token amount j))
  = swaps j ++ submitted net w amount token.
Proof.
  rewrite executeTrade_run. unfold final, snd.
  rewrite 2!swaps_app, swaps_submitted, swaps_trade_tail, app_nil_r.
  reflexivity.
Qed.

(** X9.  One call of [executeTrade] submits at most one swap, and none
    unless the contract lookup, the quote and the wallet address all
    succeeded; the swap sends [amount] along the path [WETH, token.address]
    to the wallet's own address, with the deadline [floor(now/1000) + 1800]
    and the minimum output computed from the quote.  A failing call writes
    one console error, naming the token and the cause. *)
Theorem executeTrade_submits_one_swap :
  forall net w token amount j,
    swaps (final (executeTrade net w token amount j))
    = swaps j ++ submitted net w amount token
    /\ (List.length (submitted net w amount token) <= 1)%nat
    /\ console_errors (final (executeTrade net w token amount j))
       = console_errors j ++ trade_log net w amount token
    /\ (forall e, getContract w routerAddress = Throws e ->
                  submitted net w amount token = [])
    /\ (forall e, quoteFor net (address token) amount = Rejected e ->
                  submitted net w amount token = [])
    /\ (forall e, getAddress w = Throws e ->
                  submitted net w amount token = []).
Proof.
  intros net w token amount j.
  split; [apply executeTrade_swaps|].
  split.
  { unfold submitted.
    destruct (getContract w routerAddress); [|simpl; lia].
    destruct (quoteFor net (address token) amount)
      as [e|[okay [e|[|quote]]]]; try (simpl; lia).
    cbn [content]. destruct (getAddress w); simpl; lia. }
  split.
  { rewrite executeTrade_run. unfold final, snd, console_errors.
    rewrite !filter_app. f_equal.
    unfold submitted, trade_log, first_failure.
    destruct (getContract w routerAddress); [|reflexivity].
    destruct (quoteFor net (address token) amount)
      as [e|[okay [e|[|quote]]]]; try reflexivity.
    cbn [content]. destruct (getAddress w); [|reflexivity].
    destruct (swapExactETHForTokens _ _ _ _ _ _) as [tx|e]; [|reflexivity].
    destruct (wait tx); reflexivity. }
  unfold submitted. repeat split; intros e He.
  - now rewrite He.
  - rewrite He. now destruct (getContract w routerAddress).
  - rewrite He. destruct (getContract w routerAddress); [|reflexivity].
    destruct (quoteFor net (address token) amount)
      as [e'|[okay [e'|[|quote]]]]; reflexivity.
Qed.

Lemma executeTrade_submits_one_swap_witness :
  submitted Samples.net_without_quotes Samples.wallet 1 Samples.usdc = [].
Proof.
  apply (proj1 (proj2 (proj2 (proj2 (proj2
           (executeTrade_submits_one_swap Samples.net_without_quotes
              Samples.wallet Samples.usdc 1 [])))))
           (Error "network down")).
  reflexivity.
Defined.

(** X10.  The slippage bound depends on the quote carrying a number: when the
    quote document has no expectedOutput the swap is still submitted, with
    the minimum output [NaN]; when expectedOutput is [null] it is submitted
    with the minimum output 0. *)
Theorem executeTrade_without_expected_output :
  forall net w token amount j router status to expected,
    getContract w routerAddress = Returns router ->
    quoteFor net (address token) amount
    = Responded (Response status (Parsed (PObject (mkQuote expected)))) ->
    getAddress w = Returns to ->
    expected = Absent \/ expected = Null ->
    exists bound,
      swaps (final (executeTrade net w token amount j))
      = swaps j ++ [SwapCall bound [Some (JStr WETH_ADDRESS); address token]
                      to (Math_floor (Date_now net / 1000) + 1800) amount]
      /\ (expected = Absent -> PrimFloat.is_nan bound = true)
      /\ (expected = Null -> bound = 0).
Proof.
  intros net w token amount j router status to expected Hc Hq Ha Hexp.
  rewrite executeTrade_swaps. unfold submitted. rewrite Hc, Hq. cbn [content].
  rewrite Ha. eexists. split; [reflexivity|].
  cbn [expectedOutput].
  split; intros ->; vm_compute; reflexivity.
Qed.

Lemma executeTrade_without_expected_output_witness :
  exists bound,
    swaps (final (executeTrade
                    (mkNetwork (tokenList Samples.net)
                       (tokenMetrics Samples.net)
                       (fun _ _ => Samples.answered (mkQuote Absent)) 0)
                    Samples.wallet Samples.usdc 1 []))
    = swaps [] ++ [SwapCall bound
                     [Some (JStr WETH_ADDRESS); address Samples.usdc]
                     (Some (JStr "0xme"))
                     (Math_floor (0 / 1000) + 1800) 1]
    /\ (Absent = Absent -> PrimFloat.is_nan bound = true)
    /\ (Absent = Null -> bound = 0).
Proof.
  apply (executeTrade_without_expected_output
           (mkNetwork (tokenList Samples.net) (tokenMetrics Samples.net)
              (fun _ _ => Samples.answered (mkQuote Absent)) 0)
           Samples.wallet Samples.usdc 1 [] Samples.router true
           (Some (JStr "0xme")) Absent);
    try reflexivity.
  left. reflexivity.
Defined.

(** ** The tool *)

Lemma map_array_toToken_frame items j :
  map_array toToken items j = (fst (map_array toToken items []), j).
Proof.
  induction items as [|item items IH]; [reflexivity|].
  cbn [map_array]. unfold bind.
  rewrite (toToken_frame item j), IH.
  destruct (fst (toToken item [])) as [t|e] eqn:Ht.
  - rewrite (toToken_frame item []), Ht.
    rewrite (surjective_pairing (map_array toToken items [])).
    destruct (fst (map_array toToken items [])); reflexivity.
  - rewrite (toToken_frame item []), Ht. reflexivity.
Qed.

Lemma fetchTokensOnBase_frame net j :
  exists log,
    fetchTokensOnBase net j = (Returns (available net), j ++ log)
    /\ swaps log = [].
Proof.
  unfold available, result, fetchTokensOnBase, try_catch, bind, fetch, json_of.
  destruct (tokenList net) as [e|[okay doc]];
    [eexists; split; reflexivity|].
  cbn [ok content]. destruct okay; cbn [negb];
    [|eexists; split; reflexivity].
  destruct doc as [e|tokens]; [eexists; split; reflexivity|].
  destruct tokens as [| | | |items|]; try (eexists; split; reflexivity).
  cbn -[map_array toToken fallbackTokens].
  rewrite (map_array_toToken_frame items j).
  rewrite (surjective_pairing (map_array toToken items [])).
  rewrite (map_array_toToken_frame items []). cbn [fst snd].
  destruct (fst (map_array toToken items [])) as [toks|e].
  - exists []. now rewrite app_nil_r.
  - eexists. split; reflexivity.
Qed.

Lemma swaps_metrics_log net tokens :
  swaps (flat_map (metrics_log net) tokens) = [].
Proof.
  induction tokens as [|t ts IH]; [reflexivity|].
  cbn [flat_map]. rewrite swaps_app, IH, app_nil_r.
  unfold metrics_log. destruct (metrics_document net t); reflexivity.
Qed.

Lemma trade_each_result net w amount tokens :
  forall results j,
    match batch_failure net w amount (map token_of tokens) with
    | Some cause =>
        result (trade_each net w amount tokens results j)
        = Throws (tradeError cause)
    | None =>
        exists all_results,
          result (trade_each net w amount tokens results j)
          = Returns all_results
          /\ List.length all_results
             = (List.length results + List.length tokens)%nat
    end.
Proof.
  induction tokens as [|t ts IH]; intros results j.
  - cbn. exists results. split; [reflexivity | lia].
  - cbn [map batch_failure trade_each]. unfold bind.
    rewrite executeTrade_run.
    pose proof (executeTrade_result net w (token_of t) amount []) as Ht.
    destruct (first_failure net w (token_of t) amount) as [cause|].
    + rewrite Ht. reflexivity.
    + destruct Ht as [h ->].
      match goal with
      | |- context [trade_each net w amount ts ?rs ?j'] =>
          specialize (IH rs j')
      end.
      destruct (batch_failure net w amount (map token_of ts)) as [cause|].
      * exact IH.
      * destruct IH as (all_results & Hres & Hlen).
        exists all_results. split; [exact Hres|].
        rewrite Hlen, length_app. simpl. lia.
Qed.

Lemma trade_each_swaps net w amount tokens :
  forall results j,
    swaps (final (trade_each net w amount tokens results j))
    = swaps j
      ++ flat_map (submitted net w amount)
           (attempted net w amount (map token_of tokens)).
Proof.
  induction tokens as [|t ts IH]; intros results j.
  - cbn. now rewrite app_nil_r.
  - cbn [map attempted trade_each flat_map]. unfold bind.
    rewrite executeTrade_run.
    pose proof (executeTrade_result net w (token_of t) amount []) as Ht.
    pose proof (swaps_trade_tail net w amount (token_of t)) as Htail.
    destruct (first_failure net w (token_of t) amount) as [cause|].
    + rewrite Ht. unfold final, snd.
      rewrite 2!swaps_app, swaps_submitted, Htail.
      cbn [flat_map]. now rewrite !app_nil_r.
    + destruct Ht as [h ->]. rewrite IH.
      rewrite 2!swaps_app, swaps_submitted, Htail, app_nil_r.
      now rewrite app_assoc.
Qed.

Lemma map_constant {A B} (c : B) (xs : list A) :
  map (fun _ => c) xs = repeat c (List.length xs).
Proof. induction xs as [|x xs IH]; [reflexivity|]. simpl. now rewrite IH. Qed.

Lemma tool_run net w parameters_amount j :
  exists j1,
    find_and_trade_base_tokens net w parameters_amount j
    = (let (o, j2) :=
         trade_each net w (amount_of parameters_amount) (profitable net) [] j1
       in
       match o with
       | Returns results =>
           (Returns ("Trades executed: "
                       ++ join ", " (map TradeResult_toString results))%string,
            j2)
       | Throws e => (Throws e, j2)
       end)
    /\ swaps j1 = swaps j.
Proof.
  unfold find_and_trade_base_tokens, bind.
  destruct (fetchTokensOnBase_frame net j) as (log & -> & Hlog).
  rewrite analyzeTokens_frame.
  eexists. split; [reflexivity|].
  rewrite !swaps_app, Hlog, swaps_metrics_log, !app_nil_r. reflexivity.
Qed.

(** X11.  The tool fails only through a trade: it rejects with the wrapped
    error of the first trade that fails, in the order of the profitable
    tokens; failures of the catalog or of metrics requests never reach the
    caller.  When every trade succeeds, the text it returns is "Trades
    executed: " followed by "[object Object]" once per trade, joined by
    ", ": it tells how many trades were made and nothing about them. *)
Theorem tool_outcome :
  forall net w parameters_amount j,
    result (find_and_trade_base_tokens net w parameters_amount j)
    = match batch_failure net w (amount_of parameters_amount)
              (map token_of (profitable net)) with
      | Some cause => Throws (tradeError cause)
      | None => Returns (summary (List.length (profitable net)))
      end.
Proof.
  intros net w parameters_amount j.
  destruct (tool_run net w parameters_amount j) as (j1 & -> & _).
  pose proof (trade_each_result net w (amount_of parameters_amount)
                (profitable net) [] j1) as Hres.
  destruct (trade_each net w (amount_of parameters_amount) (profitable net)
              [] j1) as [o j2].
  unfold result, fst in *.
  destruct (batch_failure _ _ _ _) as [cause|].
  - now rewrite Hres.
  - destruct Hres as (all_results & -> & Hlen).
    unfold summary. unfold TradeResult_toString.
    rewrite map_constant, Hlen. reflexivity.
Qed.

(** X12.  The swaps that the tool submits are those of the profitable
    tokens, in order, up to and including the first whose trade fails: each
    sends the requested amount (1 when none is given); the tokens after a
    failed trade are not traded, and the swaps already submitted stay. *)
Theorem tool_swaps :
  forall net w parameters_amount j,
    swaps (final (find_and_trade_base_tokens net w parameters_amount j))
    = swaps j
      ++ flat_map (submitted net w (amount_of parameters_amount))
           (attempted net w (amount_of parameters_amount)
              (map token_of (profitable net))).
Proof.
  intros net w parameters_amount j.
  destruct (tool_run net w parameters_amount j) as (j1 & -> & Hj1).
  pose proof (trade_each_swaps net w (amount_of parameters_amount)
                (profitable net) [] j1) as Hsw.
  destruct (trade_each net w (amount_of parameters_amount) (profitable net)
              [] j1) as [[results|e] j2];
    unfold final, snd in *; now rewrite Hsw, Hj1.
Qed.

(** X13.  The loop over the profitable tokens stops at the first failed
    trade: when the trades of [before] succeed and the trade of [token]
    fails, the run is the same whatever tokens come after [token], and it
    ends with the wrapped error of that trade. *)
Theorem trade_each_stops_at_failure :
  forall net w amount before token after cause results j,
    batch_failure net w amount (map token_of before) = None ->
    first_failure net w (token_of token) amount = Some cause ->
    trade_each net w amount (before ++ token :: after) results j
    = trade_each net w amount (before ++ [token]) results j
    /\ result (trade_each net w amount (before ++ token :: after) results j)
       = Throws (tradeError cause).
Proof.
  intros net w amount before token after cause.
  induction before as [|b bs IH]; intros results j Hbefore Hfail.
  - cbn [app trade_each]. unfold bind.
    pose proof (executeTrade_result net w (token_of token) amount j) as Ht.
    rewrite Hfail in Ht.
    destruct (executeTrade net w (token_of token) amount j) as [o j'].
    unfold result, fst in Ht. subst o. split; reflexivity.
  - cbn [map batch_failure] in Hbefore.
    cbn [app trade_each]. unfold bind.
    pose proof (executeTrade_result net w (token_of b) amount j) as Hb.
    destruct (first_failure net w (token_of b) amount); [discriminate|].
    destruct Hb as [h Hb].
    destruct (executeTrade net w (token_of b) amount j) as [o j'].
    unfold result, fst in Hb. subst o.
    apply IH; assumption.
Qed.

Lemma trade_each_stops_at_failure_witness :
  trade_each Samples.net_without_quotes Samples.wallet 1
    ([] ++ mkAnalyzed Samples.usdc high (metricsFrom Samples.dipping)
        :: [mkAnalyzed Samples.sol high (metricsFrom Samples.dipping)]) [] []
  = trade_each Samples.net_without_quotes Samples.wallet 1
      ([] ++ [mkAnalyzed Samples.usdc high (metricsFrom Samples.dipping)])
      [] []
  /\ result
       (trade_each Samples.net_without_quotes Samples.wallet 1
          ([] ++ mkAnalyzed Samples.usdc high (metricsFrom Samples.dipping)
              :: [mkAnalyzed Samples.sol high (metricsFrom Samples.dipping)])
          [] [])
     = Throws (tradeError (Error "network down")).
Proof.
  apply (trade_each_stops_at_failure Samples.net_without_quotes
           Samples.wallet 1 []
           (mkAnalyzed Samples.usdc high (metricsFrom Samples.dipping))
           [mkAnalyzed Samples.sol high (metricsFrom Samples.dipping)]
           (Error "network down") [] []); reflexivity.
Defined.

Lemma profitable_none net :
  (forall token, In token (available net) ->
                 metrics_fetch_fails net token = true) ->
  profitable net = [].
Proof.
  unfold profitable. induction (available net) as [|t ts IH]; intros H.
  - reflexivity.
  - cbn [map filter_not_null].
    assert (Ht : analysis_of net t = None).
    { specialize (H t (or_introl eq_refl)).
      unfold metrics_fetch_fails in H. unfold analysis_of.
      destruct (metrics_document net t); [discriminate | reflexivity]. }
    rewrite Ht. apply IH. intros token Hin. apply H. now right.
Qed.

(** X14.  When the metrics request fails for every available token, the
    tool still returns: its text is "Trades executed: " with nothing after
    it, and no swap is submitted. *)
Theorem tool_without_metrics :
  forall net w parameters_amount j,
    (forall token, In token (available net) ->
                   metrics_fetch_fails net token = true) ->
    result (find_and_trade_base_tokens net w parameters_amount j)
    = Returns "Trades executed: "%string
    /\ swaps (final (find_and_trade_base_tokens net w parameters_amount j))
       = swaps j.
Proof.
  intros net w parameters_amount j Hfail.
  destruct (tool_run net w parameters_amount j) as (j1 & -> & Hj1).
  rewrite (profitable_none net Hfail). cbn. split; [reflexivity | exact Hj1].
Qed.

Lemma tool_without_metrics_witness :
  result (find_and_trade_base_tokens
            (mkNetwork (tokenList Samples.net)
               (fun _ => Rejected (Error "timeout"))
               (quoteFor Samples.net) 0)
            Samples.wallet None [])
  = Returns "Trades executed: "%string
  /\ swaps (final (find_and_trade_base_tokens
                     (mkNetwork (tokenList Samples.net)
                        (fun _ => Rejected (Error "timeout"))
                        (quoteFor Samples.net) 0)
                     Samples.wallet None []))
     = swaps [].
Proof.
  apply (tool_without_metrics
           (mkNetwork (tokenList Samples.net)
              (fun _ => Rejected (Error "timeout"))
              (quoteFor Samples.net) 0)
           Samples.wallet None []).
  intros token _. reflexivity.
Defined.

End PluginFacts.

(* ====================================================================== *)
(** * Further facts about the AutoClient wrapper *)
(* ====================================================================== *)

Module LifecycleFacts.

Import AutoClient Spec AutoClientFacts.
Open Scope list_scope.

Lemma invoked_app j1 j2 : invoked (j1 ++ j2) = invoked j1 ++ invoked j2.
Proof. apply flat_map_app. Qed.

(** X15.  For every runtime, constructing the client never raises and
    [AutoClientInterface.start] resolves.  The start-up calls the plugin in
    the fixed order create, initialize, start, [onStart] (when present) and
    stops at the first call that fails; the error of that call is logged
    twice (by [initializePlugin] and by [initialize]) and ends as the single
    unhandled rejection; the plugin field holds whatever was created, and no
    interval is ever scheduled. *)
Theorem startup_sequence :
  forall rt,
    result (new_AutoClient rt) = Returns tt
    /\ returned (result (AutoClientInterface_start rt)) = true
    /\ invoked (journal (final (new_AutoClient rt))) = fst (startup rt)
    /\ unhandled (final (new_AutoClient rt))
       = match snd (startup rt) with
         | Some e => [e]
         | None => []
         end
    /\ logged_errors (journal (final (new_AutoClient rt)))
       = match snd (startup rt) with
         | Some e => [e; e]
         | None => []
         end
    /\ plugin (final (new_AutoClient rt))
       = match createRabbiTraderPlugin rt with
         | Returns created => created
         | Throws _ => None
         end
    /\ interval (final (new_AutoClient rt)) = None.
Proof.
  intros [[[[[[]|e1] [[]|e2] [[[]|e3]|] cleanup]|]|e0]];
    repeat split; reflexivity.
Qed.

Lemma stop_keeps_plugin c :
  plugin (final (stop c)) = plugin c /\ runtime (final (stop c)) = runtime c.
Proof.
  destruct c as [[timer|] rt [[i s o [[[]|e]|]]|] j u]; split; reflexivity.
Qed.

Lemma stop_invokes c :
  invoked (journal (final (stop c))) = invoked (journal c) ++ cleanup_calls c.
Proof.
  destruct c as [[timer|] rt [[i s o [[[]|e]|]]|] j u];
    unfold cleanup_calls; cbn -[invoked];
    rewrite ?invoked_app; cbn; rewrite ?app_nil_r; reflexivity.
Qed.

(** X16.  [stop()] calls no operation of the plugin but [cleanup], and it
    does not release the plugin: the plugin field is unchanged, whether
    [cleanup] completes or raises, so a second [stop()] calls [cleanup]
    again. *)
Theorem stop_is_repeatable :
  forall c,
    plugin (final (stop c)) = plugin c
    /\ invoked (journal (final (stop c)))
       = invoked (journal c) ++ cleanup_calls c
    /\ invoked (journal (final (stop (final (stop c)))))
       = invoked (journal c) ++ cleanup_calls c ++ cleanup_calls c.
Proof.
  intros c. destruct (stop_keeps_plugin c) as [Hp Hr].
  split; [exact Hp|]. split; [apply stop_invokes|].
  rewrite !stop_invokes, <- app_assoc. f_equal. f_equal.
  unfold cleanup_calls. now rewrite Hp.
Qed.

(** X17.  [stop()] calls [cleanup] of a plugin that exists, whether or not
    it was started: when [initialize()] failed during construction and the
    plugin has a [cleanup] hook that completes, a later [stop()] returns,
    and the plugin has then seen create, initialize and cleanup, and never
    start. *)
Theorem stop_cleans_unstarted_plugin :
  forall e start onStart,
    let p := mkPlugin (Throws e) start onStart (Some (Returns tt)) in
    let rt := mkRuntime (Returns (Some p)) in
    result (stop (final (new_AutoClient rt))) = Returns tt
    /\ invoked (journal (final (stop (final (new_AutoClient rt)))))
       = [op_create; op_initialize; op_cleanup].
Proof. intros e start onStart. split; reflexivity. Qed.

End LifecycleFacts.
